(** * react-currency-converter: the exchange-rate service and the currency formatter

    A shallow embedding of [src/utils/exchangeRate.ts] (class [ExchangeRate])
    and [src/utils/currencyFormat.tsx] (class [CurrencyFormat]), followed by
    the state and the handlers of the [App] component that calls them.

    - JavaScript numbers are IEEE-754 binary64 values: Rocq's primitive [float].
    - A JavaScript object used as a dictionary is a [gmap string _] of its own
      properties together with its prototype: a read that finds no own
      property goes on through the prototype chain to [Object.prototype], and
      an assignment to ["__proto__"] runs the setter inherited from it.
    - An [async] method is a computation in a state-and-exception monad: the
      state is the receiver ([this]) together with the outside world (the clock
      and the log of HTTP requests sent so far); a rejected promise is a thrown
      completion.  One call runs to completion before the next one starts.
    - The HTTP provider, the host's [Intl] data and the properties of the
      built-in values that are not rate tables (the realm) are parameters. *)

From Stdlib Require Import PrimFloat ZArith.
From stdpp Require Import gmap strings list pretty.

Local Open Scope string_scope.
Local Open Scope Z_scope.

(** ** JavaScript values, truthiness and completions *)

Abbreviation number := float.

(** [!x] on a number is true for [0], [-0] and [NaN]. *)
Definition truthy_number (x : number) : bool :=
  negb (PrimFloat.is_zero x || PrimFloat.is_nan x).

(** [!s] on a string is true for the empty string only. *)
Definition truthy_string (s : string) : bool :=
  negb (String.eqb s "").

Inductive JsError : Type :=
| Error (message : string)
| TypeError (message : string)
| SyntaxError (message : string)
| RangeError (message : string).

(** How the evaluation of a call (or the settling of a promise) ends. *)
Inductive Completion (A : Type) : Type :=
| Return (a : A)
| Throw (e : JsError).
Arguments Return {A} a.
Arguments Throw {A} e.

Definition throws {A : Type} (c : Completion A) : bool :=
  match c with
  | Return _ => false
  | Throw _ => true
  end.

(** ** The provider's HTTP interface *)

(** interface ConversionRates { [key: string]: number }: the own properties
    of an object made by [JSON.parse], whose prototype is [Object.prototype]. *)
Abbreviation ConversionRates := (gmap string number).

(** ** Objects used as dictionaries

    The string-keyed properties of [Object.prototype]: eleven functions and
    the accessor ["__proto__"]. *)
Definition Object_prototype_functions : list string :=
  ["constructor"; "hasOwnProperty"; "isPrototypeOf"; "propertyIsEnumerable";
   "toLocaleString"; "toString"; "valueOf"; "__defineGetter__"; "__defineSetter__";
   "__lookupGetter__"; "__lookupSetter__"].

Definition inherited_function (key : string) : bool :=
  existsb (String.eqb key) Object_prototype_functions.

(** [key] names a property of [Object.prototype]. *)
Definition inherited (key : string) : bool :=
  String.eqb key "__proto__" || inherited_function key.

(** A value as far as [convert] looks at it: a number, or anything else with
    its truthiness and the number it converts to ([undefined] is falsy and
    converts to [NaN]; a function or [Object.prototype] is truthy and converts
    to [NaN]). *)
Inductive JsValue : Type :=
| Number (n : number)
| NonNumber (truthy : bool) (to_number : number).

Definition undefined : JsValue := NonNumber false PrimFloat.nan.

(** A built-in function, or the object [Object.prototype]. *)
Definition builtin_object : JsValue := NonNumber true PrimFloat.nan.

Definition truthy (v : JsValue) : bool :=
  match v with
  | Number n => truthy_number n
  | NonNumber t _ => t
  end.

(** ToNumber *)
Definition to_number (v : JsValue) : number :=
  match v with
  | Number n => n
  | NonNumber _ n => n
  end.

(** What a read of the rate cache can give besides a rate table: a number
    found in a table that became the prototype of the cache, a function of
    [Object.prototype], or [Object.prototype] itself. *)
Inductive Foreign : Type :=
| InheritedNumber (n : number)
| BuiltinFunction (member : string)
| ObjectPrototype.

(** The truthy values of [this.rates[code]]. *)
Inductive Data : Type :=
| Table (table : ConversionRates)
| NotATable (v : Foreign).

(** table[key]: an own entry of the table, else what [Object.prototype] has
    under [key] (for ["__proto__"] the getter returns the table's prototype,
    [Object.prototype]), else [undefined]. *)
Definition table_get (table : ConversionRates) (key : string) : JsValue :=
  match table !! key with
  | Some n => Number n
  | None => if inherited key then builtin_object else undefined
  end.

(** The realm: what a property read gives on a value that is not a rate
    table (a number, a built-in function, [Object.prototype]); such a read
    can throw. *)
Class Realm : Type := {
  foreign_get : Foreign -> string -> Completion JsValue
}.

(** A realm in which the values that are not rate tables have no property at
    all: used to run the model on inputs that never read such a value. *)
Definition bare_realm : Realm := {| foreign_get := fun _ _ => Return undefined |}.

#[global] Existing Instance bare_realm.

(** data[key] *)
Definition data_get {realm : Realm} (data : Data) (key : string) : Completion JsValue :=
  match data with
  | Table table => Return (table_get table key)
  | NotATable v => foreign_get v key
  end.

Module CurrencyData.
Record t : Type := mk { result : string; conversion_rates : ConversionRates }.
End CurrencyData.

Module CodesData.
Record t : Type := mk { result : string; supported_codes : list (string * string) }.
End CodesData.

(** What [fetch] resolves to.  [json] is the settled outcome of
    [response.json()]: it rejects on a malformed body, and a body that parses
    to a falsy value such as [null] is [Return None]. *)
Record Response (A : Type) : Type := mkResponse {
  status : Z;
  json : Completion (option A)
}.
Arguments mkResponse {A} status json.
Arguments status {A} r.
Arguments json {A} r.

(** [response.ok]: the status is in the range 200-299. *)
Definition ok {A : Type} (r : Response A) : bool :=
  (200 <=? status r) && (status r <=? 299).

Inductive HttpOutcome (A : Type) : Type :=
| NetworkError
| Responds (r : Response A).
Arguments NetworkError {A}.
Arguments Responds {A} r.

(** One resource of the provider: the answer to the [n]-th request sent by the
    service (counting from 0) when it asks for [url]. *)
Definition Endpoint (A : Type) : Type := nat -> string -> HttpOutcome A.

(** The two resources the service reads; the [as CodesData] and
    [as CurrencyData] casts of the source are the types of the two fields. *)
Record Provider : Type := mkProvider {
  codes_resource : Endpoint CodesData.t;
  latest_resource : Endpoint CurrencyData.t
}.

(** ** The service object and the monad its methods run in *)

Record Currency : Type := mkCurrency { code : string; name : string }.

(** [rates] holds the own properties of [this.rates]; [rates_prototype] is
    its prototype when that is no longer [Object.prototype] but a table. *)
Record ExchangeRate : Type := mkExchangeRate {
  exchangeRateApiKey : option string;
  currencies : list Currency;
  rates : gmap string ConversionRates;
  rates_prototype : option ConversionRates;
  updatedAt : option Z
}.

(** this.rates[code] || null *)
Definition rates_get (this : ExchangeRate) (code : string) : option Data :=
  match rates this !! code with
  | Some table => Some (Table table)
  | None =>
      match rates_prototype this with
      | Some p =>
          match p !! code with
          | Some n => if truthy_number n then Some (NotATable (InheritedNumber n)) else None
          | None =>
              if String.eqb code "__proto__" then Some (Table p)
              else if inherited_function code then Some (NotATable (BuiltinFunction code))
              else None
          end
      | None =>
          if String.eqb code "__proto__" then Some (NotATable ObjectPrototype)
          else if inherited_function code then Some (NotATable (BuiltinFunction code))
          else None
      end
  end.

(** Whether [this.rates[code] = table] runs the ["__proto__"] setter of
    [Object.prototype]: the key is ["__proto__"] and no object of the chain
    before [Object.prototype] has an own property of that name. *)
Definition reparents (this : ExchangeRate) (code : string) : bool :=
  String.eqb code "__proto__"
  && negb (bool_decide (is_Some (rates this !! code)))
  && match rates_prototype this with
     | Some p => negb (bool_decide (is_Some (p !! code)))
     | None => true
     end.

(** this.rates[code] = table: the setter makes [table] the prototype of
    [this.rates]; any other assignment creates or updates an own property. *)
Definition rates_set (this : ExchangeRate) (code : string) (table : ConversionRates)
  : ExchangeRate :=
  if reparents this code
  then mkExchangeRate (exchangeRateApiKey this) (currencies this) (rates this)
         (Some table) (updatedAt this)
  else mkExchangeRate (exchangeRateApiKey this) (currencies this)
         (<[code := table]> (rates this)) (rates_prototype this) (updatedAt this).

Definition exchangeRateBaseUrl : string := "https://v6.exchangerate-api.com/v6/".

(** The outside world: the clock in milliseconds ([new Date().getTime()]) and
    the URLs requested so far, oldest first. *)
Record World : Type := mkWorld { clock : Z; requests : list string }.

Definition State : Type := ExchangeRate * World.

Definition M (A : Type) : Type := State -> Completion A * State.

Definition ret {A : Type} (a : A) : M A := fun st => (Return a, st).

Definition throw {A : Type} (e : JsError) : M A := fun st => (Throw e, st).

Definition bind {A B : Type} (m : M A) (k : A -> M B) : M B :=
  fun st =>
    match m st with
    | (Return a, st') => k a st'
    | (Throw e, st') => (Throw e, st')
    end.

(** try { m } catch (error) { h error } *)
Definition try_catch {A : Type} (m : M A) (h : JsError -> M A) : M A :=
  fun st =>
    match m st with
    | (Return a, st') => (Return a, st')
    | (Throw e, st') => h e st'
    end.

Declare Scope js_scope.
Delimit Scope js_scope with js.
Notation "x <- m ;; k" := (bind m (fun x => k))
  (at level 100, m at next level, right associativity) : js_scope.
Notation "m ;;; k" := (bind m (fun _ => k))
  (at level 100, right associativity) : js_scope.
Local Open Scope js_scope.

Definition get_this : M ExchangeRate := fun st => (Return (fst st), st).

Definition Date_now : M Z := fun st => (Return (clock (snd st)), st).

(** this.currencies = l *)
Definition set_currencies (l : list Currency) : M unit :=
  fun '(this, w) =>
    (Return tt,
     (mkExchangeRate (exchangeRateApiKey this) l (rates this) (rates_prototype this)
        (updatedAt this), w)).

(** this.rates[code] = table *)
Definition set_rates (code : string) (table : ConversionRates) : M unit :=
  fun '(this, w) =>
    (Return tt, (rates_set this code table, w)).

(** await fetch(url): the request is logged, and a network failure rejects. *)
Definition http_fetch {A : Type} (resource : Endpoint A) (url : string) : M (Response A) :=
  fun '(this, w) =>
    let w' := mkWorld (clock w) (requests w ++ [url]) in
    match resource (length (requests w)) url with
    | NetworkError => (Throw (TypeError "Failed to fetch"), (this, w'))
    | Responds r => (Return r, (this, w'))
    end.

(** A [string | null] interpolated in a template literal. *)
Definition interpolate (s : option string) : string :=
  match s with
  | Some v => v
  | None => "null"
  end.

(** `${this.exchangeRateBaseUrl}/${this.exchangeRateApiKey}/${endpoint}` *)
Definition endpoint_url (this : ExchangeRate) (endpoint : string) : string :=
  exchangeRateBaseUrl ++ "/" ++ interpolate (exchangeRateApiKey this) ++ "/" ++ endpoint.

(** a.some(pred) *)
Definition some {A : Type} (pred : A -> bool) (a : list A) : bool := existsb pred a.

(** Lifts the completion of a synchronous step into the monad. *)
Definition settle {A : Type} (c : Completion A) : M A := fun st => (c, st).

Section Service.

Context {realm : Realm}.
Variable provider : Provider.

(** constructor(apiKey) *)
Definition new (apiKey : string) : Completion ExchangeRate :=
  if negb (truthy_string apiKey) then Throw (Error "API key is required.")
  else Return (mkExchangeRate (Some apiKey) [] ∅ None None).

(** The [try] block returns the promise of [response.json()] without
    awaiting it, so the block's value is that promise's outcome and a
    rejection of it is not caught; the [catch] clause returns [null].  The
    async function then settles the way the returned value does. *)
Definition fetchApiData {A : Type} (resource : Endpoint A) (endpoint : string)
  : M (option A) :=
  this <- get_this ;;
  returned <- try_catch
    (response <- http_fetch resource
       (endpoint_url this endpoint) ;;
     if negb (ok response)
     then throw (Error ("API request failed with status " ++ pretty (status response)))
     else ret (json response))
    (fun error => ret (Return None)) ;;
  match returned with
  | Return data => ret data
  | Throw e => throw e
  end.

Definition fetchCurrencies : M unit :=
  data <- fetchApiData (codes_resource provider) "/codes" ;;
  match data with
  | Some d =>
      if String.eqb (CodesData.result d) "success"
      then set_currencies
             (map (fun '(code, name) => mkCurrency code name)
                (CodesData.supported_codes d))
      else ret tt
  | None => ret tt
  end.

(** The freshness test of [fetchRates]; the clock is consulted only when
    [updatedAt] is set. *)
Definition stale (this : ExchangeRate) (now : Z) : bool :=
  match updatedAt this with
  | None => true
  | Some t => 3600000 <? now - t
  end.

Definition fetchRates (code : string) : M (option Data) :=
  this <- get_this ;;
  now <- Date_now ;;
  (if stale this now
   then
     data <- fetchApiData (latest_resource provider) ("/latest/" ++ code) ;;
     match data with
     | Some d =>
         if String.eqb (CurrencyData.result d) "success"
         then set_rates code (CurrencyData.conversion_rates d)
         else ret tt
     | None => ret tt
     end
   else ret tt) ;;;
  this <- get_this ;;
  ret (rates_get this code).

Definition convert (from to : string) (amount : number) : M (option number) :=
  this <- get_this ;;
  if negb (some (fun currency => String.eqb (code currency) from) (currencies this))
  then throw (Error ("Invalid currency: " ++ from))
  else
    if negb (some (fun currency => String.eqb (code currency) to) (currencies this))
    then throw (Error ("Invalid currency: " ++ to))
    else
      data <- fetchRates from ;;
      match data with
      | None => ret None
      | Some data =>
          rate <- settle (data_get data to) ;;
          if negb (truthy rate)
          then throw (Error ("Exchange rate not found for " ++ from ++ " to " ++ to))
          else ret (Some (amount * to_number rate)%float)
      end.

Definition getCurrencies : M (list string) :=
  this <- get_this ;;
  (if (length (currencies this) =? 0)%nat then fetchCurrencies else ret tt) ;;;
  this <- get_this ;;
  ret (map code (currencies this)).

Definition getCurrenciesWithNames : M (list Currency) :=
  this <- get_this ;;
  (if (length (currencies this) =? 0)%nat then fetchCurrencies else ret tt) ;;;
  this <- get_this ;;
  ret (currencies this).

Definition getCurrencyName (c : string) : M (option string) :=
  this <- get_this ;;
  (if (length (currencies this) =? 0)%nat then fetchCurrencies else ret tt) ;;;
  this <- get_this ;;
  ret (name <$> List.find (fun c' => String.eqb (code c') c) (currencies this)).

End Service.

(** ** The host's number formatter

    [Intl.NumberFormat] belongs to the JavaScript host.  Its constructor is
    modelled after ECMA-402: the locale argument must be a structurally valid
    language tag and, with [style: "currency"], the currency must be a
    well-formed currency code (three ASCII letters); otherwise it throws a
    [RangeError].  Which tags are valid and the rendered text come from the
    host. *)
Module Intl.

Record Host : Type := mkHost {
  IsStructurallyValidLanguageTag : string -> bool;
  FormatNumeric : string -> string -> number -> string
}.

Definition is_ascii_letter (a : Ascii.ascii) : bool :=
  let n := Ascii.nat_of_ascii a in
  (((65 <=? n) && (n <=? 90)) || ((97 <=? n) && (n <=? 122)))%nat.

Definition IsWellFormedCurrencyCode (currency : string) : bool :=
  (String.length currency =? 3)%nat
  && forallb is_ascii_letter (String.list_ascii_of_string currency).

Record NumberFormat : Type := mkNumberFormat { locale : string; currency : string }.

(** new Intl.NumberFormat(locales, { style: "currency", currency }) *)
Definition new (host : Host) (locales currency : string) : Completion NumberFormat :=
  if negb (IsStructurallyValidLanguageTag host locales)
  then Throw (RangeError ("Incorrect locale information provided"))
  else
    if negb (IsWellFormedCurrencyCode currency)
    then Throw (RangeError ("Invalid currency code : " ++ currency))
    else Return (mkNumberFormat locales currency).

Definition format (host : Host) (nf : NumberFormat) (value : number) : string :=
  FormatNumeric host (locale nf) (currency nf) value.

End Intl.

(** ** The currency formatter *)
Module CurrencyFormat.

Record t : Type := mk { lang : string }.

(** constructor(lang) *)
Definition new (lang : string) : Completion t :=
  if negb (truthy_string lang) then Throw (Error "Language code is required.")
  else Return (mk lang).

Definition format (host : Intl.Host) (this : t) (value : number) (currency : string)
  : Completion string :=
  if negb (truthy_string currency) then Throw (Error "Currency code is required.")
  else
    match Intl.new host (lang this) currency with
    | Return nf => Return (Intl.format host nf value)
    | Throw e => Throw e
    end.

End CurrencyFormat.

(** ** Sample environments used to run the model *)

Definition USD_BRL_codes : CodesData.t :=
  CodesData.mk "success" [("USD", "United States Dollar"); ("BRL", "Brazilian Real")].

Definition success_response {A : Type} (data : A) : HttpOutcome A :=
  Responds (mkResponse 200 (Return (Some data))).

Definition latest_of (table : ConversionRates) : CurrencyData.t :=
  CurrencyData.mk "success" table.

(** A provider whose network is down. *)
Definition offline : Provider :=
  mkProvider (fun _ _ => NetworkError) (fun _ _ => NetworkError).

(** A provider that always lists USD and BRL and always answers the rates
    request with [table]. *)
Definition steady (table : ConversionRates) : Provider :=
  mkProvider (fun _ _ => success_response USD_BRL_codes)
             (fun _ _ => success_response (latest_of table)).

(** A provider that always lists [codes] and always answers the rates
    request with [table]. *)
Definition listing (codes : list (string * string)) (table : ConversionRates) : Provider :=
  mkProvider (fun _ _ => success_response (CodesData.mk "success" codes))
             (fun _ _ => success_response (latest_of table)).

(** As [steady], but every request from the [n]-th on meets a network failure. *)
Definition failing_from (n : nat) (table : ConversionRates) : Provider :=
  mkProvider
    (fun i _ => if (i <? n)%nat then success_response USD_BRL_codes else NetworkError)
    (fun i _ => if (i <? n)%nat then success_response (latest_of table) else NetworkError).

(** The service right after [new ExchangeRate(apiKey)] for a non-empty key. *)
Definition fresh (apiKey : string) : ExchangeRate :=
  mkExchangeRate (Some apiKey) [] ∅ None None.

Definition boot : State := (fresh "key", mkWorld 0 []).

(** The state a computation leaves, and its outcome. *)
Definition exec {A : Type} (m : M A) (st : State) : State := snd (m st).
Definition eval {A : Type} (m : M A) (st : State) : Completion A := fst (m st).

(** A host that accepts every language tag and renders nothing. *)
Definition lenient_host : Intl.Host := Intl.mkHost (fun _ => true) (fun _ _ _ => "").

(** ** Calls, histories and observations *)

(** The public methods of the service, as calls a client can make. *)
Inductive Call : Type :=
| CallFetchRates (code : string)
| CallConvert (from to : string) (amount : number)
| CallGetCurrencies
| CallGetCurrenciesWithNames
| CallGetCurrencyName (code : string).

Definition perform {realm : Realm} (provider : Provider) (c : Call) (st : State) : State :=
  match c with
  | CallFetchRates code => exec (fetchRates provider code) st
  | CallConvert from to amount => exec (convert provider from to amount) st
  | CallGetCurrencies => exec (getCurrencies provider) st
  | CallGetCurrenciesWithNames => exec (getCurrenciesWithNames provider) st
  | CallGetCurrencyName code => exec (getCurrencyName provider code) st
  end.

(** The two currency-listing operations. *)
Definition is_listing (c : Call) : bool :=
  match c with
  | CallGetCurrencies | CallGetCurrenciesWithNames => true
  | _ => false
  end.

(** [dt] milliseconds pass between two calls. *)
Definition later (dt : Z) (st : State) : State :=
  (fst st, mkWorld (clock (snd st) + dt) (requests (snd st))).

(** The states a service instance can be in: it is constructed with a
    non-empty key, then its methods are called one after the other while time
    passes. *)
Inductive reachable {realm : Realm} (provider : Provider) : State -> Prop :=
| reachable_new (apiKey : string) (this : ExchangeRate) (now : Z) :
    new apiKey = Return this ->
    reachable provider (this, mkWorld now [])
| reachable_call (c : Call) (st : State) :
    reachable provider st ->
    reachable provider (perform provider c st)
| reachable_later (dt : Z) (st : State) :
    reachable provider st ->
    0 <= dt ->
    reachable provider (later dt st).

(** [code] is the code of one of the cached currencies. *)
Definition listed (this : ExchangeRate) (c : string) : bool :=
  some (fun currency => String.eqb (code currency) c) (currencies this).

(** The provider's answer to the next request, if it is for the rates of
    [base], does not yield a success result: the network fails, the HTTP
    status is not in the 2xx range, or the body is falsy or carries a
    [result] other than "success". *)
Definition unsuccessful (o : HttpOutcome CurrencyData.t) : bool :=
  match o with
  | NetworkError => true
  | Responds r =>
      if ok r
      then match json r with
           | Return (Some d) => negb (String.eqb (CurrencyData.result d) "success")
           | Return None => true
           | Throw _ => false
           end
      else true
  end.

Definition next_latest (provider : Provider) (st : State) (base : string)
  : HttpOutcome CurrencyData.t :=
  latest_resource provider (length (requests (snd st)))
    (endpoint_url (fst st) ("/latest/" ++ base)).

(** A provider whose rates for every base move from one request to the next. *)
Definition drifting : Provider :=
  mkProvider
    (fun _ _ => success_response USD_BRL_codes)
    (fun i _ => success_response
                  (latest_of {[ "BRL" := if (i =? 0)%nat then 5%float else 6%float ]})).

(** What [fetchApiData] settles to, read off the provider's answer: failures
    caught by its [catch] clause become [null]. *)
Definition settled {A : Type} (o : HttpOutcome A) : Completion (option A) :=
  match o with
  | NetworkError => Return None
  | Responds r => if ok r then json r else Return None
  end.

(** The table [fetchRates] stores when the answer is a success result. *)
Definition stored (o : HttpOutcome CurrencyData.t) : option ConversionRates :=
  match settled o with
  | Return (Some d) =>
      if String.eqb (CurrencyData.result d) "success"
      then Some (CurrencyData.conversion_rates d)
      else None
  | _ => None
  end.

(** Two service objects that differ at most in the currency list and in the
    rate tables. *)
Definition same_config (this this' : ExchangeRate) : Prop :=
  exchangeRateApiKey this' = exchangeRateApiKey this
  /\ updatedAt this' = updatedAt this.

(** The request log only grows, by at most [n] entries. *)
Definition sends_at_most (n : nat) (st st' : State) : Prop :=
  exists sent : list string,
    requests (snd st') = (requests (snd st) ++ sent)%list /\ (length sent <= n)%nat.

(** The provider's answer to the next request, if it is for the supported
    codes. *)
Definition next_codes (provider : Provider) (st : State) : HttpOutcome CodesData.t :=
  codes_resource provider (length (requests (snd st))) (endpoint_url (fst st) "/codes").

(** That answer does not yield a success result (as [unsuccessful], for the
    supported-codes resource). *)
Definition codes_unsuccessful (o : HttpOutcome CodesData.t) : bool :=
  match o with
  | NetworkError => true
  | Responds r =>
      if ok r
      then match json r with
           | Return (Some d) => negb (String.eqb (CodesData.result d) "success")
           | Return None => true
           | Throw _ => false
           end
      else true
  end.

(** The URLs of the two resources, for the key of [this]. *)
Definition service_request (this : ExchangeRate) (url : string) : Prop :=
  url = endpoint_url this "/codes"
  \/ exists base : string, url = endpoint_url this ("/latest/" ++ base).

(** The three methods that read the currency list. *)
Definition reads_list (c : Call) : bool :=
  match c with
  | CallGetCurrencies | CallGetCurrenciesWithNames | CallGetCurrencyName _ => true
  | _ => false
  end.

(** As [steady], but from the [n]-th request on the provider answers 200 with
    a body that is not JSON. *)
Definition garbled_from (n : nat) (table : ConversionRates) : Provider :=
  mkProvider
    (fun i _ => if (i <? n)%nat then success_response USD_BRL_codes
                else Responds (mkResponse 200 (Throw (SyntaxError "Unexpected token"))))
    (fun i _ => if (i <? n)%nat then success_response (latest_of table)
                else Responds (mkResponse 200 (Throw (SyntaxError "Unexpected token")))).

(** ** The converter component ([App])

    The state of the component is the pair of its two [useState] records
    together with the list shown in the pickers.  A handler computes its
    update from the state its render saw ([seen]) and merges it into the
    latest state, as [setState(prev => ({...prev, ...update}))] does.
    [parseFloat], [toFixed(2)] and the message of the [TypeError] raised by
    a member access on [null] belong to the host. *)
Module App.

Record AppState : Type := mkAppState { loading : bool; error : option string }.

Record ConversorData : Type := mkConversorData {
  from : string;
  to : string;
  rawAmount : string;
  amount : number;
  result : number
}.

(** Partial<AppState> and Partial<ConversorData> *)
Record PartialAppState : Type := mkPartialAppState {
  loading' : option bool;
  error' : option (option string)
}.

Record PartialConversorData : Type := mkPartialConversorData {
  from' : option string;
  to' : option string;
  rawAmount' : option string;
  amount' : option number;
  result' : option number
}.

Record Ui : Type := mkUi {
  appState : AppState;
  currencies : list Currency;
  conversorData : ConversorData
}.

Record JsHost : Type := mkJsHost {
  parseFloat : string -> number;
  toFixed2 : number -> string;
  null_member_message : string
}.

(** useState initial values *)
Definition initial : Ui :=
  mkUi (mkAppState false None) [] (mkConversorData "USD" "BRL" "" 0%float 0%float).

(** const currencyFormat = new CurrencyFormat("pt-BR") *)
Definition currencyFormat : CurrencyFormat.t := CurrencyFormat.mk "pt-BR".

(** ({ ...prev, ...newState }) *)
Definition spread_AppState (prev : AppState) (newState : PartialAppState) : AppState :=
  mkAppState (default (loading prev) (loading' newState))
             (default (error prev) (error' newState)).

Definition spread_ConversorData (prev : ConversorData) (newData : PartialConversorData)
  : ConversorData :=
  mkConversorData (default (from prev) (from' newData))
                  (default (to prev) (to' newData))
                  (default (rawAmount prev) (rawAmount' newData))
                  (default (amount prev) (amount' newData))
                  (default (result prev) (result' newData)).

Definition handleStateUpdate (newState : PartialAppState) (ui : Ui) : Ui :=
  mkUi (spread_AppState (appState ui) newState) (currencies ui) (conversorData ui).

Definition handleConversorDataUpdate (newData : PartialConversorData) (ui : Ui) : Ui :=
  mkUi (appState ui) (currencies ui) (spread_ConversorData (conversorData ui) newData).

Definition setCurrencies (l : list Currency) (ui : Ui) : Ui :=
  mkUi (appState ui) l (conversorData ui).

Definition setAppState (a : AppState) (ui : Ui) : Ui :=
  mkUi a (currencies ui) (conversorData ui).

(** error.message *)
Definition message (e : JsError) : string :=
  match e with
  | Error m | TypeError m | SyntaxError m | RangeError m => m
  end.

(** The effect run on mount: load the currencies for the pickers. *)
Definition mount (provider : Provider) (ui : Ui) (st : State) : Ui * State :=
  match getCurrenciesWithNames provider st with
  | (Return fetchedCurrencies, st') => (setCurrencies fetchedCurrencies ui, st')
  | (Throw _, st') =>
      (setAppState (mkAppState false (Some "Failed to fetch currencies")) ui, st')
  end.

(** The object literal passed to [handleConversorDataUpdate] in [fetchRates];
    its fields are evaluated in order, and [result.toFixed] on [null] throws. *)
Definition conversion_update (h : JsHost) (intl : Intl.Host) (seen : ConversorData)
    (converted : option number) : Completion PartialConversorData :=
  match converted with
  | None => Throw (TypeError (null_member_message h))
  | Some r =>
      match CurrencyFormat.format intl currencyFormat (amount seen) (from seen) with
      | Return raw =>
          Return (mkPartialConversorData None None (Some raw) None
                    (Some (parseFloat h (toFixed2 h r))))
      | Throw e => Throw e
      end
  end.

(** The click handler of the "Converter" button. *)
Definition fetchRates {realm : Realm} (h : JsHost) (intl : Intl.Host) (provider : Provider)
    (seen : ConversorData) (ui : Ui) (st : State) : Ui * State :=
  let ui := handleStateUpdate (mkPartialAppState (Some true) (Some None)) ui in
  let '(c, st') := convert provider (from seen) (to seen) (amount seen) st in
  let attempt :=
    match c with
    | Return converted => conversion_update h intl seen converted
    | Throw e => Throw e
    end in
  let ui :=
    match attempt with
    | Return newData => handleConversorDataUpdate newData ui
    | Throw e =>
        handleStateUpdate
          (mkPartialAppState None
             (Some (Some (if truthy_string (message e) then message e
                          else "An error occurred"))))
          ui
    end in
  (handleStateUpdate (mkPartialAppState (Some false) None) ui, st').

(** The characters "," and ".". *)
Definition comma : Ascii.ascii := Eval cbv in Ascii.ascii_of_nat 44.
Definition dot : Ascii.ascii := Eval cbv in Ascii.ascii_of_nat 46.

(** s.replace(",", "."): the first comma only. *)
Fixpoint replace_comma (s : string) : string :=
  match s with
  | EmptyString => EmptyString
  | String a s' =>
      if Ascii.eqb a comma then String dot s' else String a (replace_comma s')
  end.

Definition amount_char (a : Ascii.ascii) : bool :=
  let n := Ascii.nat_of_ascii a in
  (((48 <=? n) && (n <=? 57)) || Ascii.eqb a comma || Ascii.eqb a dot)%nat.

(** s.replace(/[^\d,.]/g, "") *)
Fixpoint strip_amount (s : string) : string :=
  match s with
  | EmptyString => EmptyString
  | String a s' => if amount_char a then String a (strip_amount s') else strip_amount s'
  end.

Definition handleValueChange (h : JsHost) (value : string) : PartialConversorData :=
  let sanitizedValue := replace_comma value in
  let amount :=
    if PrimFloat.is_nan (parseFloat h sanitizedValue) then 0%float
    else parseFloat h sanitizedValue in
  mkPartialConversorData None None (Some sanitizedValue) (Some amount) None.

(** The [onChange] of the amount field. *)
Definition onAmountChange (h : JsHost) (typed : string) (ui : Ui) : Ui :=
  handleConversorDataUpdate (handleValueChange h (strip_amount typed)) ui.

(** handleCurrencyChange("from", value) and handleCurrencyChange("to", value) *)
Definition handleCurrencyChange_from (value : string) : PartialConversorData :=
  mkPartialConversorData (Some value) None None None (Some 0%float).

Definition handleCurrencyChange_to (value : string) : PartialConversorData :=
  mkPartialConversorData None (Some value) None None (Some 0%float).

Definition resetConverter : PartialConversorData :=
  mkPartialConversorData None None (Some "") (Some 0%float) (Some 0%float).

Definition invertCurrencies (intl : Intl.Host) (seen : ConversorData)
  : Completion PartialConversorData :=
  match CurrencyFormat.format intl currencyFormat (result seen) (to seen) with
  | Return raw =>
      Return (mkPartialConversorData (Some (to seen)) (Some (from seen)) (Some raw)
                (Some (result seen)) (Some (amount seen)))
  | Throw e => Throw e
  end.

(** The click handler of the "Inverter" button: a throwing handler updates
    nothing. *)
Definition onInvert (intl : Intl.Host) (ui : Ui) : Completion Ui :=
  match invertCurrencies intl (conversorData ui) with
  | Return newData => Return (handleConversorDataUpdate newData ui)
  | Throw e => Throw e
  end.

(** All characters of [s] satisfy [p]. *)
Fixpoint all_chars (p : Ascii.ascii -> bool) (s : string) : bool :=
  match s with
  | EmptyString => true
  | String a s' => p a && all_chars p s'
  end.

(** The number of commas in [s]. *)
Fixpoint commas (s : string) : nat :=
  match s with
  | EmptyString => 0
  | String a s' => ((if Ascii.eqb a comma then 1 else 0) + commas s')%nat
  end.

(** A host whose [parseFloat] is of no use: it maps everything to [NaN]. *)
Definition nan_host : JsHost :=
  mkJsHost (fun _ => PrimFloat.nan) (fun _ => "NaN")
           "Cannot read properties of null (reading 'toFixed')".

End App.

(** * Properties *)

(** ** Running the model on a sample provider *)

Example ex_convert :
  eval (convert (steady {[ "BRL" := 5%float ]}) "USD" "BRL" 10%float)
       (exec (getCurrencies (steady {[ "BRL" := 5%float ]})) boot)
  = Return (Some 50%float).
Proof. vm_compute. reflexivity. Qed.

Example ex_requests :
  requests (snd (exec (convert (steady {[ "BRL" := 5%float ]}) "USD" "BRL" 10%float)
       (exec (getCurrencies (steady {[ "BRL" := 5%float ]})) boot)))
  = ["https://v6.exchangerate-api.com/v6//key//codes";
     "https://v6.exchangerate-api.com/v6//key//latest/USD"].
Proof. vm_compute. reflexivity. Qed.

Example ex_format :
  CurrencyFormat.format lenient_host (CurrencyFormat.mk "pt-BR") 1%float "X"
  = Throw (RangeError "Invalid currency code : X").
Proof. reflexivity. Qed.

(** ** Closed forms of the methods *)

Lemma fetchApiData_run {A : Type} (resource : Endpoint A) (endpoint : string)
    (this : ExchangeRate) (w : World) :
  fetchApiData resource endpoint (this, w)
  = (settled (resource (length (requests w)) (endpoint_url this endpoint)),
     (this, mkWorld (clock w) (requests w ++ [endpoint_url this endpoint]))).
Proof.
  unfold fetchApiData, bind, try_catch, get_this, http_fetch, settled, ret, throw.
  simpl.
  destruct (resource _ _) as [|r]; [reflexivity|].
  destruct (ok r); simpl; [|reflexivity].
  destruct (json r); reflexivity.
Qed.

Lemma fetchRates_run_fresh (provider : Provider) (base : string)
    (this : ExchangeRate) (w : World) :
  stale this (clock w) = false ->
  fetchRates provider base (this, w) = (Return (rates_get this base), (this, w)).
Proof.
  intros Hfresh.
  unfold fetchRates, bind, get_this, Date_now, ret. simpl.
  rewrite Hfresh. reflexivity.
Qed.

Lemma fetchRates_run_stale (provider : Provider) (base : string)
    (this : ExchangeRate) (w : World) :
  stale this (clock w) = true ->
  let o := next_latest provider (this, w) base in
  let w' := mkWorld (clock w) (requests w ++ [endpoint_url this ("/latest/" ++ base)]) in
  fetchRates provider base (this, w)
  = match settled o with
    | Throw e => (Throw e, (this, w'))
    | Return _ =>
        match stored o with
        | Some table =>
            (Return (rates_get (rates_set this base table) base),
             (rates_set this base table, w'))
        | None => (Return (rates_get this base), (this, w'))
        end
    end.
Proof.
  intros Hstale. cbv zeta.
  unfold fetchRates, stored, next_latest.
  unfold bind at 1 2. unfold get_this at 1, Date_now. cbn [fst snd].
  rewrite Hstale.
  unfold bind at 1 2. rewrite fetchApiData_run.
  destruct (settled _) as [[d|]|e]; cbn; try reflexivity.
  destruct (String.eqb _ _); reflexivity.
Qed.

Lemma fetchCurrencies_run (provider : Provider) (this : ExchangeRate) (w : World) :
  let o := codes_resource provider (length (requests w)) (endpoint_url this "/codes") in
  let w' := mkWorld (clock w) (requests w ++ [endpoint_url this "/codes"]) in
  fetchCurrencies provider (this, w)
  = match settled o with
    | Throw e => (Throw e, (this, w'))
    | Return (Some d) =>
        if String.eqb (CodesData.result d) "success"
        then (Return tt,
              (mkExchangeRate (exchangeRateApiKey this)
                 (map (fun '(code, name) => mkCurrency code name) (CodesData.supported_codes d))
                 (rates this) (rates_prototype this) (updatedAt this), w'))
        else (Return tt, (this, w'))
    | Return None => (Return tt, (this, w'))
    end.
Proof.
  cbv zeta. unfold fetchCurrencies, bind. rewrite fetchApiData_run.
  destruct (settled _) as [[d|]|e]; cbn; try reflexivity.
  destruct (String.eqb _ _); reflexivity.
Qed.

(** ** Reads and writes of the rate cache *)

Lemma rates_set_config (this : ExchangeRate) (code : string) (table : ConversionRates) :
  exchangeRateApiKey (rates_set this code table) = exchangeRateApiKey this
  /\ currencies (rates_set this code table) = currencies this
  /\ updatedAt (rates_set this code table) = updatedAt this.
Proof. unfold rates_set. destruct (reparents this code); auto. Qed.

Lemma reparents_only_proto (this : ExchangeRate) (code : string) :
  code <> "__proto__" -> reparents this code = false.
Proof.
  intros Hne. unfold reparents.
  destruct (String.eqb_spec code "__proto__"); [contradiction | reflexivity].
Qed.

(** An assignment under a key other than ["__proto__"] is an insertion among
    the own properties. *)
Lemma rates_set_own (this : ExchangeRate) (code : string) (table : ConversionRates) :
  code <> "__proto__" ->
  rates_set this code table
  = mkExchangeRate (exchangeRateApiKey this) (currencies this)
      (<[code := table]> (rates this)) (rates_prototype this) (updatedAt this).
Proof.
  intros Hne. unfold rates_set. rewrite (reparents_only_proto this code Hne). reflexivity.
Qed.

Lemma rates_get_own (this : ExchangeRate) (code : string) (table : ConversionRates) :
  rates this !! code = Some table -> rates_get this code = Some (Table table).
Proof. intros H. unfold rates_get. rewrite H. reflexivity. Qed.

(** A key that is not a property of [Object.prototype], read in a cache
    whose prototype was never replaced, gives the own table or [null]. *)
Lemma rates_get_plain (this : ExchangeRate) (code : string) :
  rates_prototype this = None ->
  inherited code = false ->
  rates_get this code = Table <$> rates this !! code.
Proof.
  intros Hproto [Hp Hf]%orb_false_elim. unfold rates_get.
  rewrite Hproto, Hp, Hf. destruct (rates this !! code); reflexivity.
Qed.

Lemma rates_get_set_own (this : ExchangeRate) (code : string) (table : ConversionRates) :
  code <> "__proto__" ->
  rates_get (rates_set this code table) code = Some (Table table).
Proof.
  intros Hne. rewrite (rates_set_own this code table Hne).
  apply rates_get_own. cbn [rates]. apply lookup_insert_eq.
Qed.

Lemma rates_get_set_other (this : ExchangeRate) (code other : string)
    (table : ConversionRates) :
  code <> "__proto__" ->
  other <> code ->
  rates_get (rates_set this code table) other = rates_get this other.
Proof.
  intros Hne Hother. rewrite (rates_set_own this code table Hne).
  unfold rates_get. cbn [rates rates_prototype].
  rewrite lookup_insert_ne by congruence. reflexivity.
Qed.

(** ** What the methods leave alone *)

Lemma sends_none (st : State) : sends_at_most 0 st st.
Proof. exists []. rewrite app_nil_r. split; [reflexivity | simpl; lia]. Qed.

Lemma sends_weaken (n m : nat) (st st' : State) :
  (n <= m)%nat -> sends_at_most n st st' -> sends_at_most m st st'.
Proof. intros Hle (sent & Hreq & Hlen). exists sent. split; [assumption | lia]. Qed.

Lemma fetchRates_config (provider : Provider) (base : string) (st : State) :
  same_config (fst st) (fst (exec (fetchRates provider base) st))
  /\ currencies (fst (exec (fetchRates provider base) st)) = currencies (fst st)
  /\ sends_at_most 1 st (exec (fetchRates provider base) st).
Proof.
  destruct st as [this w]. unfold exec.
  destruct (stale this (clock w)) eqn:Hs.
  - rewrite (fetchRates_run_stale provider base this w Hs).
    assert (Hsent : forall this', sends_at_most 1 (this, w)
              (this', mkWorld (clock w) (requests w ++ [endpoint_url this ("/latest/" ++ base)]))).
    { intros this'. eexists. split; [reflexivity | simpl; lia]. }
    destruct (settled _) as [v|e]; [destruct (stored _) as [table|]|]; cbn [fst snd];
      try (split; [split; reflexivity | split; [reflexivity | apply Hsent]]).
    destruct (rates_set_config this base table) as (Hkey & Hcur & Hupd).
    split; [split; assumption | split; [assumption | apply Hsent]].
  - rewrite (fetchRates_run_fresh provider base this w Hs). cbn [fst snd].
    split; [split; reflexivity | split; [reflexivity |]].
    apply (sends_weaken 0 1); [lia | apply sends_none].
Qed.

Lemma fetchCurrencies_config (provider : Provider) (st : State) :
  same_config (fst st) (fst (exec (fetchCurrencies provider) st))
  /\ rates (fst (exec (fetchCurrencies provider) st)) = rates (fst st)
  /\ sends_at_most 1 st (exec (fetchCurrencies provider) st).
Proof.
  destruct st as [this w]. unfold exec. rewrite fetchCurrencies_run.
  assert (Hsent : forall this', sends_at_most 1 (this, w)
            (this', mkWorld (clock w) (requests w ++ [endpoint_url this "/codes"]))).
  { intros this'. eexists. split; [reflexivity | simpl; lia]. }
  destruct (settled _) as [[d|]|e]; [destruct (String.eqb _ _)| |]; cbn [fst snd];
    (split; [split; reflexivity | split; [reflexivity | apply Hsent]]).
Qed.

Lemma exec_bind_ret {A B C : Type} (m : M A) (k : M B) (f : B -> C) (st : State) :
  (forall st', exec k st' = st') ->
  exec (m ;;; (x <- k ;; ret (f x))) st = exec m st.
Proof.
  intros Hk. unfold exec, bind.
  destruct (m st) as [[a|e] st']; [|reflexivity].
  specialize (Hk st'). unfold exec in Hk.
  destruct (k st') as [[b|e] st'']; simpl in *; congruence.
Qed.

(** The three methods that read the currency list load it first when it is
    empty, and do nothing else to the state. *)
Lemma lazy_load_exec {realm : Realm} (provider : Provider) (c : Call) (st : State) :
  match c with CallGetCurrencies | CallGetCurrenciesWithNames | CallGetCurrencyName _ => True
          | _ => False end ->
  perform provider c st
  = if (length (currencies (fst st)) =? 0)%nat
    then exec (fetchCurrencies provider) st
    else st.
Proof.
  intros Hc.
  destruct c; try contradiction; cbn [perform];
    unfold getCurrencies, getCurrenciesWithNames, getCurrencyName;
    unfold exec at 1; unfold bind at 1; unfold get_this at 1; cbn [fst snd];
    match goal with
    | |- snd (bind ?m ?k _) = _ =>
        change (snd (bind m k st)) with (exec (bind m k) st)
    end;
    rewrite exec_bind_ret by reflexivity;
    destruct (length (currencies (fst st)) =? 0)%nat; reflexivity.
Qed.

Lemma convert_exec {realm : Realm} (provider : Provider) (from to : string) (amount : number)
    (st : State) :
  exec (convert provider from to amount) st
  = if listed (fst st) from && listed (fst st) to
    then exec (fetchRates provider from) st
    else st.
Proof.
  unfold exec, convert, listed.
  generalize (fetchRates provider from). intros m.
  unfold bind at 1, get_this at 1. cbn [fst snd].
  destruct (some _ (currencies (fst st))); cbn [negb andb]; [|reflexivity].
  destruct (some _ (currencies (fst st))); cbn [negb andb]; [|reflexivity].
  unfold bind.
  destruct (m st) as [[[data|]|e] st']; cbn [snd]; try reflexivity.
  unfold settle. destruct (data_get data to) as [rate|e]; [|reflexivity].
  destruct (truthy rate); reflexivity.
Qed.

Lemma perform_config {realm : Realm} (provider : Provider) (c : Call) (st : State) :
  same_config (fst st) (fst (perform provider c st)).
Proof.
  assert (Hload : forall c', match c' with
                    | CallGetCurrencies | CallGetCurrenciesWithNames
                    | CallGetCurrencyName _ => True | _ => False end ->
                    same_config (fst st) (fst (perform provider c' st))).
  { intros c' Hc'. rewrite lazy_load_exec by assumption.
    destruct (length _ =? 0)%nat; [|split; reflexivity].
    apply fetchCurrencies_config. }
  destruct c; try (apply Hload; exact I); cbn [perform].
  - apply fetchRates_config.
  - rewrite convert_exec.
    destruct (_ && _); [apply fetchRates_config | split; reflexivity].
Qed.

(** No method ever assigns [updatedAt], and the key is the one given to the
    constructor. *)
Lemma reachable_config {realm : Realm} (provider : Provider) (st : State) :
  reachable provider st ->
  updatedAt (fst st) = None
  /\ exists apiKey, exchangeRateApiKey (fst st) = Some apiKey /\ apiKey <> "".
Proof.
  induction 1 as [apiKey this now Hnew | c st Hst IH | dt st Hst IH Hdt].
  - unfold new in Hnew. unfold truthy_string in Hnew.
    destruct (String.eqb apiKey "") eqn:Hk; cbn in Hnew; [discriminate|].
    injection Hnew as <-. cbn. split; [reflexivity|].
    exists apiKey. split; [reflexivity|].
    intros ->. discriminate.
  - destruct (perform_config provider c st) as [Hkey Hupd].
    rewrite Hkey, Hupd. exact IH.
  - exact IH.
Qed.

Lemma reachable_stale {realm : Realm} (provider : Provider) (st : State) :
  reachable provider st -> stale (fst st) (clock (snd st)) = true.
Proof.
  intros Hst. unfold stale.
  destruct (reachable_config provider st Hst) as [-> _]. reflexivity.
Qed.

(** ** Conversion *)

Lemma convert_run {realm : Realm} (provider : Provider) (from to : string)
    (amount : number) (st : State) :
  convert provider from to amount st
  = if negb (listed (fst st) from) then (Throw (Error ("Invalid currency: " ++ from)), st)
    else if negb (listed (fst st) to) then (Throw (Error ("Invalid currency: " ++ to)), st)
    else
      match fetchRates provider from st with
      | (Return (Some data), st') =>
          match data_get data to with
          | Return rate =>
              if truthy rate
              then (Return (Some (amount * to_number rate)%float), st')
              else (Throw (Error ("Exchange rate not found for " ++ from ++ " to " ++ to)), st')
          | Throw e => (Throw e, st')
          end
      | (Return None, st') => (Return None, st')
      | (Throw e, st') => (Throw e, st')
      end.
Proof.
  unfold convert, listed.
  generalize (fetchRates provider from). intros m.
  unfold bind at 1, get_this at 1. cbn [fst snd].
  destruct (some _ (currencies (fst st))); cbn [negb]; [|reflexivity].
  destruct (some _ (currencies (fst st))); cbn [negb]; [|reflexivity].
  unfold bind.
  destruct (m st) as [[[data|]|e] st']; try reflexivity.
  unfold settle. destruct (data_get data to) as [rate|e]; [|reflexivity].
  destruct (truthy rate); reflexivity.
Qed.

(** A table read under a key it holds gives the stored number. *)
Lemma data_get_own {realm : Realm} (table : ConversionRates) (key : string) (r : number) :
  table !! key = Some r -> data_get (Table table) key = Return (Number r).
Proof. intros H. unfold data_get, table_get. rewrite H. reflexivity. Qed.

(** C1 (as amended): for codes [from] and [to] both in the cached currency
    list and every amount >= 0, if the rate table obtained for [from] has an
    entry for [to] whose rate [r] is truthy (neither zero nor NaN), then
    [convert(from, to, amount)] returns [amount * r]. *)
Theorem convert_multiplies_by_rate {realm : Realm} (provider : Provider) (from to : string)
    (amount r : number) (table : ConversionRates) (st : State) :
  listed (fst st) from = true ->
  listed (fst st) to = true ->
  (0 <=? amount)%float = true ->
  eval (fetchRates provider from) st = Return (Some (Table table)) ->
  table !! to = Some r ->
  truthy_number r = true ->
  eval (convert provider from to amount) st = Return (Some (amount * r)%float).
Proof.
  intros Hfrom Hto _ Hrates Hrate Htruthy.
  unfold eval in *. rewrite convert_run, Hfrom, Hto. cbn [negb].
  destruct (fetchRates provider from st) as [c st']. cbn [fst] in Hrates. subst c.
  rewrite (data_get_own table to r Hrate). cbn [truthy to_number].
  rewrite Htruthy. reflexivity.
Qed.

Lemma convert_multiplies_by_rate_witness :
  eval (convert (steady {[ "BRL" := 5%float ]}) "USD" "BRL" 3%float)
       (perform (steady {[ "BRL" := 5%float ]}) CallGetCurrencies boot)
  = Return (Some 15%float).
Proof.
  apply (convert_multiplies_by_rate (steady {[ "BRL" := 5%float ]}) "USD" "BRL"
           3%float 5%float {[ "BRL" := 5%float ]});
    vm_compute; reflexivity.
Defined.

(** C1 (as stated) fails for a zero rate: USD and BRL are listed, the table
    obtained for USD maps BRL to 0, and [convert("USD", "BRL", 10)] throws
    instead of returning [10 * 0]. *)
Lemma convert_zero_rate_counterexample :
  let provider := steady {[ "BRL" := 0%float ]} in
  let st := perform provider CallGetCurrencies boot in
  listed (fst st) "USD" = true
  /\ listed (fst st) "BRL" = true
  /\ (0 <=? 10)%float = true
  /\ eval (fetchRates provider "USD") st = Return (Some (Table {[ "BRL" := 0%float ]}))
  /\ ({[ "BRL" := 0%float ]} : ConversionRates) !! "BRL" = Some 0%float
  /\ eval (convert provider "USD" "BRL" 10%float) st
     = Throw (Error "Exchange rate not found for USD to BRL").
Proof. vm_compute. repeat split; reflexivity. Qed.

(** C3: if [from] or [to] is not in the cached currency list,
    [convert(from, to, amount)] throws an "Invalid currency" error naming
    one of the two codes; it sends no request and leaves the state as it was. *)
Theorem convert_rejects_unlisted_code {realm : Realm} (provider : Provider) (from to : string)
    (amount : number) (st : State) :
  listed (fst st) from = false \/ listed (fst st) to = false ->
  exists c : string,
    (c = from \/ c = to)
    /\ listed (fst st) c = false
    /\ convert provider from to amount st = (Throw (Error ("Invalid currency: " ++ c)), st).
Proof.
  intros Hbad. rewrite convert_run.
  destruct (listed (fst st) from) eqn:Hfrom; cbn [negb].
  - destruct Hbad as [Hbad | Hto]; [discriminate|].
    exists to. rewrite Hto. cbn [negb]. auto.
  - exists from. auto.
Qed.

Lemma convert_rejects_unlisted_code_witness :
  exists c : string,
    (c = "USD" \/ c = "XXX")
    /\ listed (fst (perform (steady ∅) CallGetCurrencies boot)) c = false
    /\ convert (steady ∅) "USD" "XXX" 1%float (perform (steady ∅) CallGetCurrencies boot)
       = (Throw (Error ("Invalid currency: " ++ c)),
          perform (steady ∅) CallGetCurrencies boot).
Proof.
  apply (convert_rejects_unlisted_code (steady ∅) "USD" "XXX" 1%float).
  right. vm_compute. reflexivity.
Defined.

(** C9: for [from] and [to] both listed, if the table fetched for [from] maps
    [to] to 0, [convert] throws "Exchange rate not found" although the key is
    present. *)
Theorem convert_zero_rate_not_found {realm : Realm} (provider : Provider) (from to : string)
    (amount : number) (table : ConversionRates) (st : State) :
  listed (fst st) from = true ->
  listed (fst st) to = true ->
  eval (fetchRates provider from) st = Return (Some (Table table)) ->
  table !! to = Some 0%float ->
  eval (convert provider from to amount) st
  = Throw (Error ("Exchange rate not found for " ++ from ++ " to " ++ to)).
Proof.
  intros Hfrom Hto Hrates Hzero.
  unfold eval in *. rewrite convert_run, Hfrom, Hto. cbn [negb].
  destruct (fetchRates provider from st) as [c st']. cbn [fst] in Hrates. subst c.
  rewrite (data_get_own table to 0%float Hzero). reflexivity.
Qed.

Lemma convert_zero_rate_not_found_witness :
  eval (convert (steady {[ "BRL" := 0%float ]}) "USD" "BRL" 10%float)
       (perform (steady {[ "BRL" := 0%float ]}) CallGetCurrencies boot)
  = Throw (Error ("Exchange rate not found for " ++ "USD" ++ " to " ++ "BRL")).
Proof.
  apply (convert_zero_rate_not_found (steady {[ "BRL" := 0%float ]}) "USD" "BRL"
           10%float {[ "BRL" := 0%float ]});
    vm_compute; reflexivity.
Defined.

(** A key absent from the table and from [Object.prototype] gives the very
    same error as a zero rate. *)
Lemma convert_absent_rate_not_found {realm : Realm} (provider : Provider) (from to : string)
    (amount : number) (table : ConversionRates) (st : State) :
  listed (fst st) from = true ->
  listed (fst st) to = true ->
  eval (fetchRates provider from) st = Return (Some (Table table)) ->
  table !! to = None ->
  inherited to = false ->
  eval (convert provider from to amount) st
  = Throw (Error ("Exchange rate not found for " ++ from ++ " to " ++ to)).
Proof.
  intros Hfrom Hto Hrates Hnone Hplain.
  unfold eval in *. rewrite convert_run, Hfrom, Hto. cbn [negb].
  destruct (fetchRates provider from st) as [c st']. cbn [fst] in Hrates. subst c.
  unfold data_get, table_get. rewrite Hnone, Hplain. reflexivity.
Qed.

(** On a service instance every [fetchRates] call sends one request: the
    freshness test always succeeds because [updatedAt] stays [null]. *)
Lemma fetchRates_reachable_run {realm : Realm} (provider : Provider) (base : string)
    (st : State) :
  reachable provider st ->
  fetchRates provider base st
  = let o := next_latest provider st base in
    let w' := mkWorld (clock (snd st))
                (requests (snd st) ++ [endpoint_url (fst st) ("/latest/" ++ base)]) in
    match settled o with
    | Throw e => (Throw e, (fst st, w'))
    | Return _ =>
        match stored o with
        | Some table =>
            (Return (rates_get (rates_set (fst st) base table) base),
             (rates_set (fst st) base table, w'))
        | None => (Return (rates_get (fst st) base), (fst st, w'))
        end
    end.
Proof.
  intros Hst. pose proof (reachable_stale provider st Hst) as Hstale.
  destruct st as [this w]. cbn [fst snd] in *.
  exact (fetchRates_run_stale provider base this w Hstale).
Qed.

(** C7: on a service instance whose currency list holds USD and BRL, if the
    provider answers the rates request for USD with
    [{result: "success", conversion_rates: {"BRL": 5.0}}], then
    [convert("USD", "BRL", 10)] returns 50. *)
Theorem convert_USD_BRL_10_is_50 {realm : Realm} (provider : Provider) (st : State)
    (r : Response CurrencyData.t) :
  reachable provider st ->
  listed (fst st) "USD" = true ->
  listed (fst st) "BRL" = true ->
  next_latest provider st "USD" = Responds r ->
  ok r = true ->
  json r = Return (Some (CurrencyData.mk "success" {[ "BRL" := 5%float ]})) ->
  eval (convert provider "USD" "BRL" 10%float) st = Return (Some 50%float).
Proof.
  intros Hst Husd Hbrl Hnext Hok Hjson.
  unfold eval. rewrite convert_run, Husd, Hbrl. cbn [negb].
  rewrite (fetchRates_reachable_run provider "USD" st Hst). cbv zeta.
  unfold stored. rewrite Hnext. unfold settled. rewrite Hok, Hjson.
  cbn [CurrencyData.result CurrencyData.conversion_rates String.eqb Ascii.eqb Bool.eqb].
  rewrite rates_get_set_own by discriminate.
  reflexivity.
Qed.

Lemma reachable_boot_listed {realm : Realm} (provider : Provider) :
  reachable provider (perform provider CallGetCurrencies boot).
Proof.
  apply reachable_call. unfold boot.
  apply (reachable_new provider "key"). reflexivity.
Defined.

Lemma convert_USD_BRL_10_is_50_witness :
  eval (convert (steady {[ "BRL" := 5%float ]}) "USD" "BRL" 10%float)
       (perform (steady {[ "BRL" := 5%float ]}) CallGetCurrencies boot)
  = Return (Some 50%float).
Proof.
  apply (convert_USD_BRL_10_is_50 (steady {[ "BRL" := 5%float ]}) _
           (mkResponse 200 (Return (Some (latest_of {[ "BRL" := 5%float ]}))))).
  - apply reachable_boot_listed.
  - vm_compute; reflexivity.
  - vm_compute; reflexivity.
  - vm_compute; reflexivity.
  - vm_compute; reflexivity.
  - vm_compute; reflexivity.
Defined.

(** ** The rate cache *)

Lemma fetchRates_unsuccessful_run (provider : Provider) (base : string) (st : State) :
  unsuccessful (next_latest provider st base) = true ->
  fetchRates provider base st
  = (Return (rates_get (fst st) base),
     (fst st, snd (exec (fetchRates provider base) st))).
Proof.
  intros Hfail. destruct st as [this w]. unfold exec. cbn [fst snd] in *.
  destruct (stale this (clock w)) eqn:Hs.
  - rewrite (fetchRates_run_stale provider base this w Hs). cbv zeta.
    unfold stored, settled. unfold unsuccessful in Hfail.
    destruct (next_latest provider (this, w) base) as [|r]; [reflexivity|].
    destruct (ok r); [|reflexivity].
    destruct (json r) as [[d|]|e]; [| reflexivity | discriminate].
    destruct (String.eqb _ _); [discriminate | reflexivity].
  - rewrite (fetchRates_run_fresh provider base this w Hs). reflexivity.
Qed.

(** C4 does not hold of the code: [fetchRates] ends with
    [this.rates[code] || null] whether or not the fetch succeeded.  The
    provider answers the codes request and the first rates request, then the
    network goes down; the next [fetchRates("USD")] meets a network failure
    and returns the table cached before instead of [null], and
    [convert("USD", "BRL", 10)] returns 50 computed from it. *)
Theorem fetchRates_failure_serves_stale_table :
  let provider := failing_from 2 {[ "BRL" := 5%float ]} in
  let st := perform provider (CallFetchRates "USD") (perform provider CallGetCurrencies boot) in
  next_latest provider st "USD" = NetworkError
  /\ eval (fetchRates provider "USD") st = Return (Some (Table {[ "BRL" := 5%float ]}))
  /\ eval (convert provider "USD" "BRL" 10%float) st = Return (Some 50%float).
Proof. vm_compute. repeat split; reflexivity. Qed.

(** C10 does not hold of the code for the base ["__proto__"]: the assignment
    [this.rates["__proto__"] = table] creates no entry; it makes the table
    the prototype of the cache, so what is read under every key of that
    table changes.  Before the call nothing is read under "BRL"; after a
    successful [fetchRates("__proto__")] the cache reads 5 under "BRL", and a
    [fetchRates("BRL")] whose fetch fails returns that number. *)
Theorem fetchRates_proto_changes_other_entries :
  let provider := steady {[ "BRL" := 5%float ]} in
  let st' := exec (fetchRates provider "__proto__") boot in
  rates_get (fst boot) "BRL" = None
  /\ eval (fetchRates provider "__proto__") boot = Return (Some (Table {[ "BRL" := 5%float ]}))
  /\ rates (fst st') = ∅
  /\ rates_prototype (fst st') = Some {[ "BRL" := 5%float ]}
  /\ rates_get (fst st') "BRL" = Some (NotATable (InheritedNumber 5%float))
  /\ eval (fetchRates offline "BRL") st' = Return (Some (NotATable (InheritedNumber 5%float))).
Proof. vm_compute. repeat split; reflexivity. Qed.

Lemma fetchRates_always_fetches {realm : Realm} (provider : Provider) (base : string)
    (st : State) :
  reachable provider st ->
  requests (snd (exec (fetchRates provider base) st))
  = (requests (snd st) ++ [endpoint_url (fst st) ("/latest/" ++ base)])%list.
Proof.
  intros Hst. unfold exec. rewrite (fetchRates_reachable_run provider base st Hst).
  cbv zeta. destruct (settled _) as [v|e]; [destruct (stored _)|]; reflexivity.
Qed.

(** C2 does not hold of the code: [updatedAt] is never assigned, so the
    freshness test of [fetchRates] always asks for a fetch.  Here the first
    [fetchRates("USD")] fetches successfully; one second later a second call
    sends a second request and returns the provider's new table instead of
    the cached one. *)
Theorem fetchRates_refetches_inside_window :
  let st1 := perform drifting (CallFetchRates "USD") boot in
  let st2 := later 1000 st1 in
  eval (fetchRates drifting "USD") boot = Return (Some (Table {[ "BRL" := 5%float ]}))
  /\ requests (snd st1) = ["https://v6.exchangerate-api.com/v6//key//latest/USD"]
  /\ updatedAt (fst st1) = None
  /\ clock (snd st2) - clock (snd st1) = 1000
  /\ requests (snd (exec (fetchRates drifting "USD") st2))
     = ["https://v6.exchangerate-api.com/v6//key//latest/USD";
        "https://v6.exchangerate-api.com/v6//key//latest/USD"]
  /\ eval (fetchRates drifting "USD") st2 = Return (Some (Table {[ "BRL" := 6%float ]})).
Proof. vm_compute. repeat split; reflexivity. Qed.

(** ** The currency list *)

(** C5 does not hold of the code: on a service whose currency list was never
    loaded, [convert] validates against the empty list at once; it throws
    "Invalid currency" for [from] without sending any request. *)
Theorem convert_validates_without_loading {realm : Realm} (provider : Provider)
    (apiKey from to : string)
    (amount : number) (w : World) :
  convert provider from to amount (fresh apiKey, w)
  = (Throw (Error ("Invalid currency: " ++ from)), (fresh apiKey, w)).
Proof. rewrite convert_run. reflexivity. Qed.

(** The sibling methods do load the list first: on the same state
    [getCurrencyName] sends the request for the supported codes. *)
Lemma getCurrencyName_loads_first {realm : Realm} (provider : Provider) (apiKey c : string)
    (w : World) :
  requests (snd (perform provider (CallGetCurrencyName c) (fresh apiKey, w)))
  = (requests w ++ [endpoint_url (fresh apiKey) "/codes"])%list.
Proof.
  rewrite lazy_load_exec by exact I. cbn [fst currencies fresh length Nat.eqb].
  unfold exec. rewrite fetchCurrencies_run. cbv zeta.
  destruct (settled _) as [[d|]|e]; [destruct (String.eqb _ _)| |]; reflexivity.
Qed.

Lemma listing_exec {realm : Realm} (provider : Provider) (c : Call) (st : State) :
  is_listing c = true ->
  perform provider c st
  = if (length (currencies (fst st)) =? 0)%nat
    then exec (fetchCurrencies provider) st
    else st.
Proof.
  intros Hc. apply lazy_load_exec. destruct c; try discriminate; exact I.
Qed.

Lemma listing_requests {realm : Realm} (provider : Provider) (c : Call) (st : State) :
  is_listing c = true ->
  requests (snd (perform provider c st))
  = if (length (currencies (fst st)) =? 0)%nat
    then (requests (snd st) ++ [endpoint_url (fst st) "/codes"])%list
    else requests (snd st).
Proof.
  intros Hc. rewrite (listing_exec provider c st Hc).
  destruct (length (currencies (fst st)) =? 0)%nat; [|reflexivity].
  destruct st as [this w]. unfold exec. rewrite fetchCurrencies_run. cbv zeta.
  destruct (settled _) as [[d|]|e]; [destruct (String.eqb _ _)| |]; reflexivity.
Qed.

(** A success answer that lists at least one code fills the list. *)
Lemma listing_success_fills_list {realm : Realm} (provider : Provider) (c : Call) (st : State)
    (r : Response CodesData.t) (d : CodesData.t) :
  is_listing c = true ->
  codes_resource provider (length (requests (snd st))) (endpoint_url (fst st) "/codes")
  = Responds r ->
  ok r = true ->
  json r = Return (Some d) ->
  CodesData.result d = "success" ->
  CodesData.supported_codes d <> [] ->
  currencies (fst (perform provider c st)) <> [].
Proof.
  intros Hc Hans Hok Hjson Hres Hcodes.
  rewrite (listing_exec provider c st Hc).
  destruct (currencies (fst st)) as [|c0 l] eqn:Hcur; cbn [length Nat.eqb].
  - destruct st as [this w]. unfold exec. rewrite fetchCurrencies_run. cbv zeta.
    cbn [fst snd] in *. rewrite Hans. unfold settled. rewrite Hok, Hjson, Hres.
    cbn. destruct (CodesData.supported_codes d); [contradiction | discriminate].
  - rewrite Hcur. discriminate.
Qed.

(** C6 (as amended): of two consecutive currency-listing calls, each sends at
    most one request, and that request is for the supported-codes resource;
    when the currency list is not empty after the first call, the second call
    sends none, so at most one fetch is performed across the two calls. *)
Theorem listing_twice_fetches_once {realm : Realm} (provider : Provider) (c1 c2 : Call) (dt : Z)
    (st : State) :
  is_listing c1 = true ->
  is_listing c2 = true ->
  let st1 := perform provider c1 st in
  let st2 := perform provider c2 (later dt st1) in
  (requests (snd st1) = requests (snd st)
   \/ requests (snd st1) = (requests (snd st) ++ [endpoint_url (fst st) "/codes"])%list)
  /\ (requests (snd st2) = requests (snd st1)
      \/ requests (snd st2) = (requests (snd st1) ++ [endpoint_url (fst st1) "/codes"])%list)
  /\ (currencies (fst st1) <> [] -> requests (snd st2) = requests (snd st1)).
Proof.
  intros Hc1 Hc2 st1 st2.
  pose proof (listing_requests provider c1 st Hc1) as H1.
  pose proof (listing_requests provider c2 (later dt st1) Hc2) as H2.
  cbn [later fst snd requests] in H2.
  fold st1 in H1. fold st2 in H2. clearbody st1 st2.
  split; [rewrite H1; destruct (length (currencies (fst st)) =? 0)%nat; auto|].
  rewrite H2.
  split; [destruct (length (currencies (fst st1)) =? 0)%nat; auto|].
  intros Hne.
  destruct (currencies (fst st1)); [contradiction | reflexivity].
Qed.

Lemma listing_twice_fetches_once_witness :
  let provider := steady ∅ in
  let st1 := perform provider CallGetCurrencies boot in
  let st2 := perform provider CallGetCurrenciesWithNames (later 5 st1) in
  (requests (snd st1) = requests (snd boot)
   \/ requests (snd st1) = (requests (snd boot) ++ [endpoint_url (fst boot) "/codes"])%list)
  /\ (requests (snd st2) = requests (snd st1)
      \/ requests (snd st2) = (requests (snd st1) ++ [endpoint_url (fst st1) "/codes"])%list)
  /\ (currencies (fst st1) <> [] -> requests (snd st2) = requests (snd st1)).
Proof.
  apply (listing_twice_fetches_once (steady ∅) CallGetCurrencies
           CallGetCurrenciesWithNames 5 boot); reflexivity.
Defined.

(** C6 (as stated) fails when the first fetch does not fill the list: with
    the network down, two consecutive [getCurrencies] calls send two requests
    for the supported codes. *)
Lemma listing_twice_counterexample :
  let st1 := perform offline CallGetCurrencies boot in
  let st2 := perform offline CallGetCurrencies st1 in
  requests (snd boot) = []
  /\ requests (snd st2)
     = ["https://v6.exchangerate-api.com/v6//key//codes";
        "https://v6.exchangerate-api.com/v6//key//codes"].
Proof. vm_compute. split; reflexivity. Qed.

(** ** The formatter *)

Lemma well_formed_code_nonempty (currency : string) :
  Intl.IsWellFormedCurrencyCode currency = true -> truthy_string currency = true.
Proof.
  destruct currency; [discriminate | reflexivity].
Qed.

(** C8 (as amended): [format(value, currencyCode)] fails if and only if
    [currencyCode] is not a well-formed currency code (three ASCII letters) or
    the formatter's locale is not a valid language tag.  It throws "Currency
    code is required." when [currencyCode] is empty and the [RangeError] of
    [Intl.NumberFormat] for the other failures; in every other case it
    returns the string rendered by the host. *)
Theorem format_failure_modes (host : Intl.Host) (this : CurrencyFormat.t)
    (value : number) (currency : string) :
  throws (CurrencyFormat.format host this value currency)
  = negb (Intl.IsWellFormedCurrencyCode currency
          && Intl.IsStructurallyValidLanguageTag host (CurrencyFormat.lang this))
  /\ (currency = "" ->
   CurrencyFormat.format host this value currency
   = Throw (Error "Currency code is required."))
  /\ (currency <> "" ->
      Intl.IsWellFormedCurrencyCode currency = false
      \/ Intl.IsStructurallyValidLanguageTag host (CurrencyFormat.lang this) = false ->
      exists message : string,
        CurrencyFormat.format host this value currency = Throw (RangeError message))
  /\ (Intl.IsWellFormedCurrencyCode currency = true ->
      Intl.IsStructurallyValidLanguageTag host (CurrencyFormat.lang this) = true ->
      CurrencyFormat.format host this value currency
      = Return (Intl.FormatNumeric host (CurrencyFormat.lang this) currency value)).
Proof.
  split.
  { unfold CurrencyFormat.format, Intl.new.
    destruct (Intl.IsWellFormedCurrencyCode currency) eqn:Hcode.
    - rewrite (well_formed_code_nonempty currency Hcode). cbn [negb andb].
      destruct (Intl.IsStructurallyValidLanguageTag host _); reflexivity.
    - destruct (truthy_string currency); cbn [negb andb]; [|reflexivity].
      destruct (Intl.IsStructurallyValidLanguageTag host _); reflexivity. }
  split; [intros ->; reflexivity|].
  split.
  - intros Hne Hbad. unfold CurrencyFormat.format, truthy_string.
    destruct (String.eqb_spec currency "") as [Heq | _]; [contradiction|].
    cbn [negb]. unfold Intl.new.
    destruct (Intl.IsStructurallyValidLanguageTag host _); cbn [negb]; [|eauto].
    destruct Hbad as [Hcode | Htag]; [|discriminate].
    rewrite Hcode. cbn [negb]. eauto.
  - intros Hcode Htag. unfold CurrencyFormat.format.
    rewrite (well_formed_code_nonempty currency Hcode). cbn [negb].
    unfold Intl.new. rewrite Htag, Hcode. reflexivity.
Qed.

Lemma format_failure_modes_witness :
  CurrencyFormat.format lenient_host (CurrencyFormat.mk "pt-BR") 0%float "USD"
  = Return (Intl.FormatNumeric lenient_host "pt-BR" "USD" 0%float).
Proof.
  apply (proj2 (proj2 (proj2
           (format_failure_modes lenient_host (CurrencyFormat.mk "pt-BR") 0%float "USD"))));
    reflexivity.
Defined.

(** C8 (as stated) fails for a non-empty code that is not a currency code:
    [format(1, "X")] throws the [RangeError] of [Intl.NumberFormat]. *)
Lemma format_malformed_code_counterexample :
  truthy_string "X" = true
  /\ CurrencyFormat.format lenient_host (CurrencyFormat.mk "pt-BR") 1%float "X"
     = Throw (RangeError "Invalid currency code : X").
Proof. split; reflexivity. Qed.

(** * Further properties of the service *)

(** ** The transport layer *)

(** X1: [fetchApiData] sends exactly one request, to the URL built from the base
    URL, the key and the endpoint, and never touches the service object.  A
    network failure and an HTTP error status are both swallowed into [null];
    it throws only when an ok response carries a body that fails to parse. *)
Theorem fetchApiData_swallows_transport_errors {A : Type} (resource : Endpoint A)
    (endpoint : string) (st : State) :
  let o := resource (length (requests (snd st))) (endpoint_url (fst st) endpoint) in
  exec (fetchApiData resource endpoint) st
  = (fst st, mkWorld (clock (snd st))
               (requests (snd st) ++ [endpoint_url (fst st) endpoint]))
  /\ (o = NetworkError -> eval (fetchApiData resource endpoint) st = Return None)
  /\ (forall r, o = Responds r -> ok r = false ->
        eval (fetchApiData resource endpoint) st = Return None)
  /\ (forall r, o = Responds r -> ok r = true ->
        eval (fetchApiData resource endpoint) st = json r)
  /\ (throws (eval (fetchApiData resource endpoint) st) = true <->
      exists r e, o = Responds r /\ ok r = true /\ json r = Throw e).
Proof.
  destruct st as [this w]. cbv zeta. unfold exec, eval.
  rewrite fetchApiData_run. cbn [fst snd].
  split; [reflexivity|].
  split; [intros ->; reflexivity|].
  split; [intros r -> Hok; cbn; rewrite Hok; reflexivity|].
  split; [intros r -> Hok; cbn; rewrite Hok; reflexivity|].
  destruct (resource _ _) as [|r]; cbn.
  - split; [discriminate | intros (r & e & Hr & _); discriminate].
  - destruct (ok r) eqn:Hok.
    + destruct (json r) as [v|e] eqn:Hjson; cbn.
      * split; [discriminate|]. intros (r' & e & Hr & _ & Hj).
        injection Hr as <-. congruence.
      * split; [|reflexivity]. intros _. exists r, e. auto.
    + cbn. split; [discriminate|]. intros (r' & e & Hr & Hok' & _).
      injection Hr as <-. congruence.
Qed.

(** ** Requests *)

Lemma fetchRates_requests (provider : Provider) (base : string) (st : State) :
  requests (snd (exec (fetchRates provider base) st)) = requests (snd st)
  \/ requests (snd (exec (fetchRates provider base) st))
     = (requests (snd st) ++ [endpoint_url (fst st) ("/latest/" ++ base)])%list.
Proof.
  destruct st as [this w]. unfold exec.
  destruct (stale this (clock w)) eqn:Hs.
  - rewrite (fetchRates_run_stale provider base this w Hs). cbv zeta. right.
    destruct (settled _) as [v|e]; [destruct (stored _)|]; reflexivity.
  - rewrite (fetchRates_run_fresh provider base this w Hs). left. reflexivity.
Qed.

Lemma reads_list_requests {realm : Realm} (provider : Provider) (c : Call) (st : State) :
  reads_list c = true ->
  requests (snd (perform provider c st))
  = if (length (currencies (fst st)) =? 0)%nat
    then (requests (snd st) ++ [endpoint_url (fst st) "/codes"])%list
    else requests (snd st).
Proof.
  intros Hc. rewrite lazy_load_exec by (destruct c; try discriminate; exact I).
  destruct (length (currencies (fst st)) =? 0)%nat; [|reflexivity].
  destruct st as [this w]. unfold exec. rewrite fetchCurrencies_run. cbv zeta.
  destruct (settled _) as [[d|]|e]; [destruct (String.eqb _ _)| |]; reflexivity.
Qed.

Lemma perform_requests {realm : Realm} (provider : Provider) (c : Call) (st : State) :
  requests (snd (perform provider c st)) = requests (snd st)
  \/ exists url : string,
       service_request (fst st) url
       /\ requests (snd (perform provider c st)) = (requests (snd st) ++ [url])%list.
Proof.
  assert (Hrates : forall base,
            requests (snd (exec (fetchRates provider base) st)) = requests (snd st)
            \/ exists url : string,
                 service_request (fst st) url
                 /\ requests (snd (exec (fetchRates provider base) st))
                    = (requests (snd st) ++ [url])%list).
  { intros base. destruct (fetchRates_requests provider base st) as [H | H];
      [left; exact H | right].
    eexists. split; [right; exists base; reflexivity | exact H]. }
  assert (Hread : forall c', reads_list c' = true ->
            requests (snd (perform provider c' st)) = requests (snd st)
            \/ exists url : string,
                 service_request (fst st) url
                 /\ requests (snd (perform provider c' st))
                    = (requests (snd st) ++ [url])%list).
  { intros c' Hc'. rewrite (reads_list_requests provider c' st Hc').
    destruct (length (currencies (fst st)) =? 0)%nat; [right | left; reflexivity].
    eexists. split; [left; reflexivity | reflexivity]. }
  destruct c; try (apply Hread; reflexivity); cbn [perform].
  - apply Hrates.
  - rewrite convert_exec. destruct (_ && _); [apply Hrates | left; reflexivity].
Qed.

(** X2: Every public method sends at most one HTTP request per call, and that
    request is for the supported codes or for the rates of one base; the
    request log is never shortened or rewritten. *)
Theorem every_call_sends_at_most_one_request {realm : Realm} (provider : Provider) (c : Call)
    (st : State) :
  exists sent : list string,
    requests (snd (perform provider c st)) = (requests (snd st) ++ sent)%list
    /\ (length sent <= 1)%nat
    /\ Forall (service_request (fst st)) sent.
Proof.
  destruct (perform_requests provider c st) as [H | (url & Hurl & H)].
  - exists []. rewrite app_nil_r. split; [exact H|].
    split; [simpl; lia | constructor].
  - exists [url]. split; [exact H|].
    split; [simpl; lia | constructor; [exact Hurl | constructor]].
Qed.

(** ** The invariant of a service instance *)

(** X3: On every state a service instance can reach, the key is the non-empty
    key given to the constructor, [updatedAt] is still [null], and every
    request sent so far went to one of the two resources under that key. *)
Theorem service_invariant {realm : Realm} (provider : Provider) (st : State) :
  reachable provider st ->
  (exists apiKey : string,
     apiKey <> "" /\ exchangeRateApiKey (fst st) = Some apiKey)
  /\ updatedAt (fst st) = None
  /\ Forall (service_request (fst st)) (requests (snd st)).
Proof.
  intros Hst.
  destruct (reachable_config provider st Hst) as (Hupd & apiKey & Hkey & Hne).
  split; [exists apiKey; auto|]. split; [exact Hupd|].
  clear Hupd Hkey Hne apiKey.
  induction Hst as [apiKey this now Hnew | c st Hst IH | dt st Hst IH Hdt].
  - constructor.
  - assert (Hsame : forall url, service_request (fst st) url ->
                      service_request (fst (perform provider c st)) url).
    { intros url. unfold service_request, endpoint_url.
      destruct (perform_config provider c st) as [-> _]. auto. }
    destruct (perform_requests provider c st) as [-> | (url & Hurl & ->)].
    + eapply Forall_impl; [exact IH | exact Hsame].
    + apply Forall_app. split.
      * eapply Forall_impl; [exact IH | exact Hsame].
      * constructor; [apply Hsame; exact Hurl | constructor].
  - exact IH.
Qed.

Lemma service_invariant_witness :
  let st := perform (steady ∅) CallGetCurrencies boot in
  (exists apiKey : string,
     apiKey <> "" /\ exchangeRateApiKey (fst st) = Some apiKey)
  /\ updatedAt (fst st) = None
  /\ Forall (service_request (fst st)) (requests (snd st)).
Proof.
  apply (service_invariant (steady ∅)). apply reachable_boot_listed.
Defined.

(** ** The currency list *)

(** X4: Once the currency list is loaded it is kept for the life of the
    instance: no method changes a non-empty list, and the three methods that
    read it then leave the whole state alone and send nothing. *)
Theorem currency_list_is_loaded_once {realm : Realm} (provider : Provider) (c : Call)
    (st : State) :
  currencies (fst st) <> [] ->
  currencies (fst (perform provider c st)) = currencies (fst st)
  /\ (reads_list c = true -> perform provider c st = st).
Proof.
  intros Hne.
  assert (Hread : reads_list c = true -> perform provider c st = st).
  { intros Hc. rewrite lazy_load_exec by (destruct c; try discriminate; exact I).
    destruct (currencies (fst st)); [contradiction | reflexivity]. }
  split; [|exact Hread].
  destruct c; try (rewrite Hread; reflexivity); cbn [perform].
  - apply fetchRates_config.
  - rewrite convert_exec. destruct (_ && _); [apply fetchRates_config | reflexivity].
Qed.

Lemma currency_list_is_loaded_once_witness :
  let st := perform (steady ∅) CallGetCurrencies boot in
  currencies (fst (perform offline (CallGetCurrencyName "USD") st)) = currencies (fst st)
  /\ (reads_list (CallGetCurrencyName "USD") = true ->
      perform offline (CallGetCurrencyName "USD") st = st).
Proof.
  apply (currency_list_is_loaded_once offline (CallGetCurrencyName "USD")
           (perform (steady ∅) CallGetCurrencies boot)).
  vm_compute. discriminate.
Defined.

Lemma run_bind (A B : Type) (m : M A) (k : A -> M B) (st : State) :
  bind m k st
  = match m st with
    | (Return a, st') => k a st'
    | (Throw e, st') => (Throw e, st')
    end.
Proof. reflexivity. Qed.

(** The lazy load shared by the three reading methods. *)
Lemma lazy_load_run (provider : Provider) (st : State) :
  (if (length (currencies (fst st)) =? 0)%nat then fetchCurrencies provider else ret tt) st
  = if (length (currencies (fst st)) =? 0)%nat
    then fetchCurrencies provider st
    else (Return tt, st).
Proof. destruct (length (currencies (fst st)) =? 0)%nat; reflexivity. Qed.

Lemma getCurrenciesWithNames_run (provider : Provider) (st : State) :
  getCurrenciesWithNames provider st
  = match (if (length (currencies (fst st)) =? 0)%nat
           then fetchCurrencies provider st else (Return tt, st)) with
    | (Return _, st') => (Return (currencies (fst st')), st')
    | (Throw e, st') => (Throw e, st')
    end.
Proof.
  unfold getCurrenciesWithNames. rewrite run_bind. unfold get_this at 1. cbn [fst snd].
  rewrite run_bind, lazy_load_run.
  destruct (if (length (currencies (fst st)) =? 0)%nat then _ else _) as [[u|e] st'];
    reflexivity.
Qed.

Lemma getCurrencies_run (provider : Provider) (st : State) :
  getCurrencies provider st
  = match (if (length (currencies (fst st)) =? 0)%nat
           then fetchCurrencies provider st else (Return tt, st)) with
    | (Return _, st') => (Return (map code (currencies (fst st'))), st')
    | (Throw e, st') => (Throw e, st')
    end.
Proof.
  unfold getCurrencies. rewrite run_bind. unfold get_this at 1. cbn [fst snd].
  rewrite run_bind, lazy_load_run.
  destruct (if (length (currencies (fst st)) =? 0)%nat then _ else _) as [[u|e] st'];
    reflexivity.
Qed.

Lemma getCurrencyName_run (provider : Provider) (c : string) (st : State) :
  getCurrencyName provider c st
  = match (if (length (currencies (fst st)) =? 0)%nat
           then fetchCurrencies provider st else (Return tt, st)) with
    | (Return _, st') =>
        (Return (name <$> List.find (fun c' => String.eqb (code c') c)
                            (currencies (fst st'))), st')
    | (Throw e, st') => (Throw e, st')
    end.
Proof.
  unfold getCurrencyName. rewrite run_bind. unfold get_this at 1. cbn [fst snd].
  rewrite run_bind, lazy_load_run.
  destruct (if (length (currencies (fst st)) =? 0)%nat then _ else _) as [[u|e] st'];
    reflexivity.
Qed.

(** X5: [getCurrencies] is [getCurrenciesWithNames] followed by the projection
    on the codes: same requests, same final state, same failures, and the
    codes come in the order of the list. *)
Theorem getCurrencies_projects_getCurrenciesWithNames (provider : Provider) (st : State) :
  getCurrencies provider st
  = match getCurrenciesWithNames provider st with
    | (Return l, st') => (Return (map code l), st')
    | (Throw e, st') => (Throw e, st')
    end.
Proof.
  rewrite getCurrencies_run, getCurrenciesWithNames_run.
  destruct (if (length (currencies (fst st)) =? 0)%nat then _ else _) as [[u|e] st'];
    reflexivity.
Qed.

Lemma find_code_listed (l : list Currency) (c : string) :
  match List.find (fun c' => String.eqb (code c') c) l with
  | Some cur => In cur l /\ code cur = c
                /\ some (fun currency => String.eqb (code currency) c) l = true
  | None => some (fun currency => String.eqb (code currency) c) l = false
  end.
Proof.
  induction l as [|x l IH]; [reflexivity|].
  cbn [List.find some existsb].
  destruct (String.eqb_spec (code x) c) as [Heq | Hne].
  - split; [left; reflexivity | split; [exact Heq | reflexivity]].
  - cbn [orb]. destruct (List.find _ l) as [cur|]; [|exact IH].
    destruct IH as (Hin & Hcode & Hsome).
    split; [right; exact Hin | split; [exact Hcode | exact Hsome]].
Qed.

(** X6: [getCurrencyName] and the validation of [convert] agree: on the state it
    leaves, [getCurrencyName(c)] returns the name of a listed currency with
    code [c] exactly when [convert] accepts [c]; when it returns [null],
    [convert] from [c] throws "Invalid currency" without sending anything. *)
Theorem getCurrencyName_agrees_with_convert {realm : Realm} (provider : Provider) (c : string)
    (st : State) :
  match getCurrencyName provider c st with
  | (Return (Some n), st') =>
      listed (fst st') c = true
      /\ exists cur : Currency, In cur (currencies (fst st')) /\ code cur = c /\ name cur = n
  | (Return None, st') =>
      listed (fst st') c = false
      /\ forall (to : string) (amount : number),
           convert provider c to amount st'
           = (Throw (Error ("Invalid currency: " ++ c)), st')
  | (Throw _, _) => True
  end.
Proof.
  rewrite getCurrencyName_run.
  destruct (if (length (currencies (fst st)) =? 0)%nat then _ else _) as [[u|e] st'];
    [|exact I].
  pose proof (find_code_listed (currencies (fst st')) c) as Hfind.
  destruct (List.find _ _) as [cur|]; cbn [fmap option_fmap option_map].
  - destruct Hfind as (Hin & Hcode & Hsome). split; [exact Hsome|].
    exists cur. auto.
  - split; [exact Hfind|]. intros to amount.
    rewrite convert_run. unfold listed. rewrite Hfind. reflexivity.
Qed.

Lemma currencies_of_codes_round_trip (codes : list (string * string)) :
  map (fun c => (code c, name c)) (map (fun '(code, name) => mkCurrency code name) codes)
  = codes
  /\ map code (map (fun '(code, name) => mkCurrency code name) codes) = map fst codes.
Proof.
  induction codes as [|[c n] l [IH1 IH2]]; [split; reflexivity|].
  cbn [map code name fst]. rewrite IH1, IH2. split; reflexivity.
Qed.

(** X7: The first listing call hands back what the provider listed: when the
    list is empty and the answer is a success result, [getCurrenciesWithNames]
    returns the provider's [(code, name)] pairs, in order and with
    duplicates kept, and [getCurrencies] returns their codes. *)
Theorem listing_returns_supported_codes (provider : Provider) (st : State)
    (r : Response CodesData.t) (d : CodesData.t) :
  currencies (fst st) = [] ->
  next_codes provider st = Responds r ->
  ok r = true ->
  json r = Return (Some d) ->
  CodesData.result d = "success" ->
  eval (getCurrencies provider) st = Return (map fst (CodesData.supported_codes d))
  /\ exists l : list Currency,
       eval (getCurrenciesWithNames provider) st = Return l
       /\ map (fun c => (code c, name c)) l = CodesData.supported_codes d.
Proof.
  intros Hempty Hnext Hok Hjson Hres.
  unfold eval. rewrite getCurrencies_run, getCurrenciesWithNames_run, Hempty.
  cbn [length Nat.eqb]. destruct st as [this w]. cbn [fst snd] in *.
  rewrite fetchCurrencies_run. cbv zeta.
  unfold next_codes in Hnext. cbn [fst snd] in Hnext. rewrite Hnext.
  unfold settled. rewrite Hok, Hjson, Hres. cbn.
  destruct (currencies_of_codes_round_trip (CodesData.supported_codes d)) as [H1 H2].
  split; [rewrite H2; reflexivity|].
  eexists. split; [reflexivity | exact H1].
Qed.

Lemma listing_returns_supported_codes_witness :
  eval (getCurrencies (steady ∅)) boot = Return (map fst (CodesData.supported_codes USD_BRL_codes))
  /\ exists l : list Currency,
       eval (getCurrenciesWithNames (steady ∅)) boot = Return l
       /\ map (fun c => (code c, name c)) l = CodesData.supported_codes USD_BRL_codes.
Proof.
  apply (listing_returns_supported_codes (steady ∅) boot
           (mkResponse 200 (Return (Some USD_BRL_codes))) USD_BRL_codes);
    reflexivity.
Defined.

(** X8: A failed load is silent: when the list is empty and the answer to the
    codes request is not a success result, the three reading methods return
    their empty results ([[]], [[]], [null]) without throwing, after one
    request, and the service object is left as it was. *)
Theorem listing_fails_silently (provider : Provider) (c : string) (st : State) :
  currencies (fst st) = [] ->
  codes_unsuccessful (next_codes provider st) = true ->
  let st' := (fst st, mkWorld (clock (snd st))
                        (requests (snd st) ++ [endpoint_url (fst st) "/codes"])) in
  getCurrencies provider st = (Return [], st')
  /\ getCurrenciesWithNames provider st = (Return [], st')
  /\ getCurrencyName provider c st = (Return None, st').
Proof.
  intros Hempty Hfail. cbv zeta.
  rewrite getCurrencies_run, getCurrenciesWithNames_run, getCurrencyName_run, Hempty.
  cbn [length Nat.eqb]. destruct st as [this w]. cbn [fst snd] in *.
  rewrite fetchCurrencies_run. cbv zeta.
  unfold next_codes in Hfail. cbn [fst snd] in Hfail.
  unfold codes_unsuccessful in Hfail. unfold settled.
  destruct (codes_resource provider _ _) as [|r].
  - cbn [fst snd]. rewrite Hempty. auto.
  - destruct (ok r).
    + destruct (json r) as [[d|]|e]; [| | discriminate].
      * destruct (String.eqb _ _); [discriminate|].
        cbn [fst snd]. rewrite Hempty. auto.
      * cbn [fst snd]. rewrite Hempty. auto.
    + cbn [fst snd]. rewrite Hempty. auto.
Qed.

Lemma listing_fails_silently_witness :
  let st' := (fst boot, mkWorld (clock (snd boot))
                          (requests (snd boot) ++ [endpoint_url (fst boot) "/codes"])) in
  getCurrencies offline boot = (Return [], st')
  /\ getCurrenciesWithNames offline boot = (Return [], st')
  /\ getCurrencyName offline "USD" boot = (Return None, st').
Proof.
  apply (listing_fails_silently offline "USD" boot); reflexivity.
Defined.

(** ** The rate cache and conversion *)

(** What [fetchRates] returns is what the cache reads under the base when the
    call ends. *)
Lemma fetchRates_returns_read (provider : Provider) (base : string) (st : State) :
  match fetchRates provider base st with
  | (Return o, st') => rates_get (fst st') base = o
  | (Throw _, st') => fst st' = fst st
  end.
Proof.
  destruct st as [this w].
  destruct (stale this (clock w)) eqn:Hs.
  - rewrite (fetchRates_run_stale provider base this w Hs). cbv zeta.
    destruct (settled _) as [v|e]; [destruct (stored _)|]; reflexivity.
  - rewrite (fetchRates_run_fresh provider base this w Hs). reflexivity.
Qed.

(** The service object after [fetchRates(base)]: as before, or after the one
    assignment [this.rates[base] = table]. *)
Lemma fetchRates_object (provider : Provider) (base : string) (st : State) :
  fst (exec (fetchRates provider base) st) = fst st
  \/ exists table : ConversionRates,
       fst (exec (fetchRates provider base) st) = rates_set (fst st) base table.
Proof.
  destruct st as [this w]. unfold exec.
  destruct (stale this (clock w)) eqn:Hs.
  - rewrite (fetchRates_run_stale provider base this w Hs). cbv zeta.
    destruct (settled _) as [v|e]; [destruct (stored _) as [table|]|]; cbn [fst snd];
      eauto.
  - rewrite (fetchRates_run_fresh provider base this w Hs). left. reflexivity.
Qed.

Lemma fetchRates_frame_aux (provider : Provider) (base : string) (st : State) :
  base <> "__proto__" ->
  rates_prototype (fst (exec (fetchRates provider base) st)) = rates_prototype (fst st)
  /\ forall other : string,
       other <> base ->
       rates (fst (exec (fetchRates provider base) st)) !! other = rates (fst st) !! other
       /\ rates_get (fst (exec (fetchRates provider base) st)) other
          = rates_get (fst st) other.
Proof.
  intros Hne.
  destruct (fetchRates_object provider base st) as [-> | (table & ->)]; [auto|].
  split; [rewrite (rates_set_own _ _ _ Hne); reflexivity|].
  intros other Hother.
  split; [|apply rates_get_set_other; assumption].
  rewrite (rates_set_own _ _ _ Hne). cbn [rates].
  apply lookup_insert_ne. congruence.
Qed.

(** X25: for every base other than ["__proto__"], a call to [fetchRates(base)]
    leaves the currency list, the API key, [updatedAt] and the prototype of
    the cache as they were, and what the cache holds and reads under every
    other key is unchanged. *)
Theorem fetchRates_frame (provider : Provider) (base : string) (st : State) :
  base <> "__proto__" ->
  let this' := fst (exec (fetchRates provider base) st) in
  currencies this' = currencies (fst st)
  /\ exchangeRateApiKey this' = exchangeRateApiKey (fst st)
  /\ updatedAt this' = updatedAt (fst st)
  /\ rates_prototype this' = rates_prototype (fst st)
  /\ forall other : string,
       other <> base ->
       rates this' !! other = rates (fst st) !! other
       /\ rates_get this' other = rates_get (fst st) other.
Proof.
  intros Hne. cbv zeta.
  destruct (fetchRates_config provider base st) as ((Hkey & Hupd) & Hcur & _).
  destruct (fetchRates_frame_aux provider base st Hne) as [Hproto Hother].
  auto.
Qed.

Lemma fetchRates_frame_witness :
  let provider := steady {[ "BRL" := 5%float ]} in
  let st := perform provider (CallFetchRates "EUR") boot in
  let this' := fst (exec (fetchRates provider "USD") st) in
  rates_get (fst st) "EUR" = Some (Table {[ "BRL" := 5%float ]})
  /\ rates_get this' "EUR" = rates_get (fst st) "EUR".
Proof.
  split; [vm_compute; reflexivity|].
  apply (fetchRates_frame (steady {[ "BRL" := 5%float ]}) "USD"
           (perform (steady {[ "BRL" := 5%float ]}) (CallFetchRates "EUR") boot));
    discriminate.
Defined.

(** X9: when the fetch does not yield a success result, [fetchRates(base)]
    leaves the service object as it was and falls back on the cache: it
    returns the table cached under [base] when there is one; it returns
    [null] when there is none, the prototype of the cache was never replaced
    and [base] names no property of [Object.prototype], and [convert] from
    such a [base] to a listed code, with [base] listed too, then returns
    [null] rather than throwing. *)
Theorem fetchRates_failure_returns_cache {realm : Realm} (provider : Provider)
    (base : string) (st : State) :
  unsuccessful (next_latest provider st base) = true ->
  fst (exec (fetchRates provider base) st) = fst st
  /\ (forall table : ConversionRates,
        rates (fst st) !! base = Some table ->
        eval (fetchRates provider base) st = Return (Some (Table table)))
  /\ (rates (fst st) !! base = None ->
      rates_prototype (fst st) = None ->
      inherited base = false ->
      eval (fetchRates provider base) st = Return None
      /\ forall (to : string) (amount : number),
           listed (fst st) base = true ->
           listed (fst st) to = true ->
           eval (convert provider base to amount) st = Return None).
Proof.
  intros Hfail.
  pose proof (fetchRates_unsuccessful_run provider base st Hfail) as Hrun.
  unfold eval, exec. split; [rewrite Hrun; reflexivity|].
  split.
  - intros table Hown. rewrite Hrun. cbn [fst].
    rewrite (rates_get_own _ _ _ Hown). reflexivity.
  - intros Hnone Hproto Hplain.
    assert (Hget : rates_get (fst st) base = None).
    { rewrite (rates_get_plain _ _ Hproto Hplain), Hnone. reflexivity. }
    split; [rewrite Hrun, Hget; reflexivity|].
    intros to amount Hbase Hto.
    rewrite convert_run, Hbase, Hto. cbn [negb].
    rewrite Hrun, Hget. reflexivity.
Qed.

Lemma fetchRates_failure_returns_cache_witness :
  let provider := failing_from 1 ∅ in
  let st := perform provider CallGetCurrencies boot in
  fst (exec (fetchRates provider "USD") st) = fst st
  /\ (forall table : ConversionRates,
        rates (fst st) !! "USD" = Some table ->
        eval (fetchRates provider "USD") st = Return (Some (Table table)))
  /\ (rates (fst st) !! "USD" = None ->
      rates_prototype (fst st) = None ->
      inherited "USD" = false ->
      eval (fetchRates provider "USD") st = Return None
      /\ forall (to : string) (amount : number),
           listed (fst st) "USD" = true ->
           listed (fst st) to = true ->
           eval (convert provider "USD" to amount) st = Return None).
Proof.
  apply (fetchRates_failure_returns_cache (failing_from 1 ∅) "USD"
           (perform (failing_from 1 ∅) CallGetCurrencies boot)).
  vm_compute. reflexivity.
Defined.

(** X10: a success answer is returned and cached: on a service instance, when
    the provider answers the rates request for a [base] other than
    ["__proto__"] with a success result, [fetchRates(base)] returns its
    table and stores it under [base] (replacing what was there, the
    prototype of the cache staying as it was), and a later call that meets a
    failed fetch still returns that table. *)
Theorem fetchRates_success_is_cached {realm : Realm} (provider : Provider)
    (base : string) (st : State) (r : Response CurrencyData.t) (d : CurrencyData.t) :
  reachable provider st ->
  base <> "__proto__" ->
  next_latest provider st base = Responds r ->
  ok r = true ->
  json r = Return (Some d) ->
  CurrencyData.result d = "success" ->
  let st' := exec (fetchRates provider base) st in
  eval (fetchRates provider base) st
  = Return (Some (Table (CurrencyData.conversion_rates d)))
  /\ rates (fst st') = <[base := CurrencyData.conversion_rates d]> (rates (fst st))
  /\ rates_prototype (fst st') = rates_prototype (fst st)
  /\ forall dt : Z,
       0 <= dt ->
       unsuccessful (next_latest provider (later dt st') base) = true ->
       eval (fetchRates provider base) (later dt st')
       = Return (Some (Table (CurrencyData.conversion_rates d))).
Proof.
  intros Hst Hne Hnext Hok Hjson Hres. cbv zeta.
  assert (Hrun : fetchRates provider base st
                 = (Return (Some (Table (CurrencyData.conversion_rates d))),
                    (rates_set (fst st) base (CurrencyData.conversion_rates d),
                     mkWorld (clock (snd st))
                       (requests (snd st) ++ [endpoint_url (fst st) ("/latest/" ++ base)])))).
  { rewrite (fetchRates_reachable_run provider base st Hst). cbv zeta.
    unfold stored. rewrite Hnext. unfold settled. rewrite Hok, Hjson, Hres.
    rewrite String.eqb_refl, (rates_get_set_own _ _ _ Hne). reflexivity. }
  unfold eval, exec. rewrite Hrun. cbn [fst snd].
  rewrite (rates_set_own _ _ _ Hne). cbn [rates rates_prototype].
  split; [reflexivity|]. split; [reflexivity|]. split; [reflexivity|].
  intros dt Hdt Hfail.
  rewrite (fetchRates_unsuccessful_run provider base _ Hfail). cbn [fst later].
  apply f_equal, rates_get_own. cbn [rates]. apply lookup_insert_eq.
Qed.

Lemma fetchRates_success_is_cached_witness :
  let provider := failing_from 2 {[ "BRL" := 5%float ]} in
  let st := perform provider CallGetCurrencies boot in
  let st' := exec (fetchRates provider "USD") st in
  eval (fetchRates provider "USD") st = Return (Some (Table {[ "BRL" := 5%float ]}))
  /\ rates (fst st') = <["USD" := {[ "BRL" := 5%float ]}]> (rates (fst st))
  /\ rates_prototype (fst st') = rates_prototype (fst st)
  /\ forall dt : Z,
       0 <= dt ->
       unsuccessful (next_latest provider (later dt st') "USD") = true ->
       eval (fetchRates provider "USD") (later dt st')
       = Return (Some (Table {[ "BRL" := 5%float ]})).
Proof.
  assert (Hnext : next_latest (failing_from 2 {[ "BRL" := 5%float ]})
                    (perform (failing_from 2 {[ "BRL" := 5%float ]}) CallGetCurrencies boot)
                    "USD"
                  = Responds (mkResponse 200 (Return (Some (latest_of {[ "BRL" := 5%float ]})))))
    by (vm_compute; reflexivity).
  assert (Hne : "USD" <> "__proto__") by discriminate.
  exact (fetchRates_success_is_cached (failing_from 2 {[ "BRL" := 5%float ]}) "USD"
           (perform (failing_from 2 {[ "BRL" := 5%float ]}) CallGetCurrencies boot)
           (mkResponse 200 (Return (Some (latest_of {[ "BRL" := 5%float ]}))))
           (latest_of {[ "BRL" := 5%float ]})
           (reachable_boot_listed _) Hne Hnext eq_refl eq_refl eq_refl).
Defined.

(** X11: A body that fails to parse is not swallowed: on a service instance, when
    the rates request gets an ok response whose body is malformed,
    [fetchRates] throws the parse error, so does [convert] for listed codes,
    and the service object is left as it was. *)
Theorem malformed_rates_body_is_thrown {realm : Realm} (provider : Provider) (base to : string)
    (amount : number) (st : State) (r : Response CurrencyData.t) (e : JsError) :
  reachable provider st ->
  next_latest provider st base = Responds r ->
  ok r = true ->
  json r = Throw e ->
  eval (fetchRates provider base) st = Throw e
  /\ fst (exec (fetchRates provider base) st) = fst st
  /\ (listed (fst st) base = true -> listed (fst st) to = true ->
      eval (convert provider base to amount) st = Throw e).
Proof.
  intros Hst Hnext Hok Hjson.
  assert (Hrun : fetchRates provider base st
                 = (Throw e, (fst st, mkWorld (clock (snd st))
                      (requests (snd st) ++ [endpoint_url (fst st) ("/latest/" ++ base)])))).
  { rewrite (fetchRates_reachable_run provider base st Hst). cbv zeta.
    rewrite Hnext. unfold settled. rewrite Hok, Hjson. reflexivity. }
  unfold eval, exec. rewrite Hrun. cbn [fst snd].
  split; [reflexivity|]. split; [reflexivity|].
  intros Hbase Hto. rewrite convert_run, Hbase, Hto. cbn [negb].
  rewrite Hrun. reflexivity.
Qed.

Lemma malformed_rates_body_is_thrown_witness :
  let provider := garbled_from 1 ∅ in
  let st := perform provider CallGetCurrencies boot in
  eval (fetchRates provider "USD") st = Throw (SyntaxError "Unexpected token")
  /\ fst (exec (fetchRates provider "USD") st) = fst st
  /\ (listed (fst st) "USD" = true -> listed (fst st) "BRL" = true ->
      eval (convert provider "USD" "BRL" 10%float) st
      = Throw (SyntaxError "Unexpected token")).
Proof.
  apply (malformed_rates_body_is_thrown (garbled_from 1 ∅) "USD" "BRL" 10%float
           (perform (garbled_from 1 ∅) CallGetCurrencies boot)
           (mkResponse 200 (Throw (SyntaxError "Unexpected token")))).
  - apply reachable_boot_listed.
  - vm_compute; reflexivity.
  - reflexivity.
  - reflexivity.
Defined.

(** X12: The same holds for the codes request: with an empty list, an ok response
    whose body is malformed makes the three reading methods throw the parse
    error instead of returning an empty result. *)
Theorem malformed_codes_body_is_thrown (provider : Provider) (c : string) (st : State)
    (r : Response CodesData.t) (e : JsError) :
  currencies (fst st) = [] ->
  next_codes provider st = Responds r ->
  ok r = true ->
  json r = Throw e ->
  eval (getCurrencies provider) st = Throw e
  /\ eval (getCurrenciesWithNames provider) st = Throw e
  /\ eval (getCurrencyName provider c) st = Throw e
  /\ fst (exec (getCurrencies provider) st) = fst st.
Proof.
  intros Hempty Hnext Hok Hjson.
  unfold eval, exec.
  rewrite getCurrencies_run, getCurrenciesWithNames_run, getCurrencyName_run, Hempty.
  cbn [length Nat.eqb]. destruct st as [this w]. cbn [fst snd] in *.
  rewrite fetchCurrencies_run. cbv zeta.
  unfold next_codes in Hnext. cbn [fst snd] in Hnext. rewrite Hnext.
  unfold settled. rewrite Hok, Hjson. cbn [fst snd]. auto.
Qed.

Lemma malformed_codes_body_is_thrown_witness :
  eval (getCurrencies (garbled_from 0 ∅)) boot = Throw (SyntaxError "Unexpected token")
  /\ eval (getCurrenciesWithNames (garbled_from 0 ∅)) boot
     = Throw (SyntaxError "Unexpected token")
  /\ eval (getCurrencyName (garbled_from 0 ∅) "USD") boot
     = Throw (SyntaxError "Unexpected token")
  /\ fst (exec (getCurrencies (garbled_from 0 ∅)) boot) = fst boot.
Proof.
  apply (malformed_codes_body_is_thrown (garbled_from 0 ∅) "USD" boot
           (mkResponse 200 (Throw (SyntaxError "Unexpected token"))));
    reflexivity.
Defined.

(** X13: [convert(from, to, amount)] never changes the currency list, the
    key or [updatedAt]; for a source other than ["__proto__"] it leaves the
    prototype of the cache alone and what the cache holds and reads under
    every other key is as before; and nothing at all changes when one of the
    codes is not listed. *)
Theorem convert_frame {realm : Realm} (provider : Provider) (from to : string)
    (amount : number) (st : State) :
  let st' := exec (convert provider from to amount) st in
  currencies (fst st') = currencies (fst st)
  /\ exchangeRateApiKey (fst st') = exchangeRateApiKey (fst st)
  /\ updatedAt (fst st') = updatedAt (fst st)
  /\ (from <> "__proto__" ->
      rates_prototype (fst st') = rates_prototype (fst st)
      /\ forall other : string,
           other <> from ->
           rates (fst st') !! other = rates (fst st) !! other
           /\ rates_get (fst st') other = rates_get (fst st) other)
  /\ (listed (fst st) from && listed (fst st) to = false -> st' = st).
Proof.
  cbv zeta. rewrite convert_exec.
  destruct (listed (fst st) from && listed (fst st) to).
  - destruct (fetchRates_config provider from st) as ((Hkey & Hupd) & Hcur & _).
    split; [exact Hcur|]. split; [exact Hkey|]. split; [exact Hupd|].
    split; [|discriminate].
    intros Hne. apply fetchRates_frame_aux. exact Hne.
  - repeat split; reflexivity.
Qed.

(** X14: whatever [convert] returns is backed by what the cache reads under
    [from] when the call ends.  When that is a rate table, a number returned
    is [amount] times a truthy rate stored under [to], or [amount * NaN] when
    [to] is missing from the table but names a property of
    [Object.prototype]; when it is not a rate table, the number is [amount]
    times what the realm reads under [to].  [null] is returned only when
    both codes are listed and the cache reads nothing under [from]. *)
Theorem convert_result_is_sound {realm : Realm} (provider : Provider) (from to : string)
    (amount : number) (st : State) :
  match convert provider from to amount st with
  | (Return (Some x), st') =>
      listed (fst st) from = true /\ listed (fst st) to = true
      /\ exists data : Data,
           rates_get (fst st') from = Some data
           /\ match data with
              | Table table =>
                  (exists r : number,
                     table !! to = Some r /\ truthy_number r = true
                     /\ x = (amount * r)%float)
                  \/ (table !! to = None /\ inherited to = true
                      /\ x = (amount * PrimFloat.nan)%float)
              | NotATable v =>
                  exists rate : JsValue,
                    foreign_get v to = Return rate /\ truthy rate = true
                    /\ x = (amount * to_number rate)%float
              end
  | (Return None, st') =>
      listed (fst st) from = true /\ listed (fst st) to = true
      /\ rates_get (fst st') from = None
  | (Throw _, _) => True
  end.
Proof.
  rewrite convert_run.
  destruct (listed (fst st) from); cbn [negb]; [|exact I].
  destruct (listed (fst st) to); cbn [negb]; [|exact I].
  pose proof (fetchRates_returns_read provider from st) as Hread.
  destruct (fetchRates provider from st) as [[[data|]|e] st']; [| auto |exact I].
  destruct (data_get data to) as [rate|e] eqn:Hget; [|exact I].
  destruct (truthy rate) eqn:Ht; [|exact I].
  split; [reflexivity|]. split; [reflexivity|].
  exists data. split; [exact Hread|].
  destruct data as [table|v]; cbn [data_get] in Hget.
  - injection Hget as <-. unfold table_get in *.
    destruct (table !! to) as [r|]; cbn [truthy to_number] in *.
    + left. exists r. auto.
    + right. destruct (inherited to); cbn in Ht; [auto | discriminate].
  - exists rate. auto.
Qed.

(** X26: a listed target that is missing from the table but names a property
    of [Object.prototype] (such as "constructor") is not reported as
    missing: [convert] multiplies the amount by the inherited member and
    returns [amount * NaN]. *)
Theorem convert_inherited_target {realm : Realm} (provider : Provider) (from to : string)
    (amount : number) (table : ConversionRates) (st : State) :
  listed (fst st) from = true ->
  listed (fst st) to = true ->
  eval (fetchRates provider from) st = Return (Some (Table table)) ->
  table !! to = None ->
  inherited to = true ->
  eval (convert provider from to amount) st
  = Return (Some (amount * PrimFloat.nan)%float).
Proof.
  intros Hfrom Hto Hrates Hnone Hinh.
  unfold eval in *. rewrite convert_run, Hfrom, Hto. cbn [negb].
  destruct (fetchRates provider from st) as [c st']. cbn [fst] in Hrates. subst c.
  unfold data_get, table_get. rewrite Hnone, Hinh. reflexivity.
Qed.

Lemma convert_inherited_target_witness :
  eval (convert (listing [("USD", "United States Dollar"); ("constructor", "Constructor")]
                   {[ "BRL" := 5%float ]})
          "USD" "constructor" 10%float)
       (perform (listing [("USD", "United States Dollar"); ("constructor", "Constructor")]
                   {[ "BRL" := 5%float ]})
          CallGetCurrencies boot)
  = Return (Some (10 * PrimFloat.nan)%float).
Proof.
  apply (convert_inherited_target
           (listing [("USD", "United States Dollar"); ("constructor", "Constructor")]
              {[ "BRL" := 5%float ]})
           "USD" "constructor" 10%float {[ "BRL" := 5%float ]});
    vm_compute; reflexivity.
Defined.

(** X15: On a service instance [convert] sends exactly one request, for the rates
    of [from], when both codes are listed, and none otherwise. *)
Theorem convert_requests {realm : Realm} (provider : Provider) (from to : string)
    (amount : number)
    (st : State) :
  reachable provider st ->
  requests (snd (exec (convert provider from to amount) st))
  = if listed (fst st) from && listed (fst st) to
    then (requests (snd st) ++ [endpoint_url (fst st) ("/latest/" ++ from)])%list
    else requests (snd st).
Proof.
  intros Hst. rewrite convert_exec.
  destruct (listed (fst st) from && listed (fst st) to); [|reflexivity].
  apply fetchRates_always_fetches. exact Hst.
Qed.

Lemma convert_requests_witness :
  let provider := steady {[ "BRL" := 5%float ]} in
  let st := perform provider CallGetCurrencies boot in
  requests (snd (exec (convert provider "USD" "BRL" 10%float) st))
  = if listed (fst st) "USD" && listed (fst st) "BRL"
    then (requests (snd st) ++ [endpoint_url (fst st) ("/latest/" ++ "USD")])%list
    else requests (snd st).
Proof.
  apply (convert_requests (steady {[ "BRL" := 5%float ]}) "USD" "BRL" 10%float
           (perform (steady {[ "BRL" := 5%float ]}) CallGetCurrencies boot)).
  apply reachable_boot_listed.
Defined.

(** * Properties of the converter component *)

(** ** The amount field *)

Lemma strip_amount_chars (s : string) :
  App.all_chars App.amount_char (App.strip_amount s) = true.
Proof.
  induction s as [|a s IH]; [reflexivity|].
  cbn [App.strip_amount]. destruct (App.amount_char a) eqn:Ha; [|exact IH].
  cbn [App.all_chars]. rewrite Ha, IH. reflexivity.
Qed.

Lemma strip_amount_commas (s : string) :
  App.commas (App.strip_amount s) = App.commas s.
Proof.
  induction s as [|a s IH]; [reflexivity|].
  cbn [App.strip_amount App.commas].
  destruct (App.amount_char a) eqn:Ha.
  - cbn [App.commas]. rewrite IH. reflexivity.
  - destruct (Ascii.eqb a App.comma) eqn:Hc; [|exact IH].
    apply Ascii.eqb_eq in Hc. subst a. discriminate.
Qed.

Lemma replace_comma_chars (s : string) :
  App.all_chars App.amount_char s = true ->
  App.all_chars App.amount_char (App.replace_comma s) = true.
Proof.
  induction s as [|a s IH]; [reflexivity|].
  cbn [App.all_chars App.replace_comma]. intros [Ha Hs]%andb_prop.
  destruct (Ascii.eqb a App.comma).
  - cbn [App.all_chars]. rewrite Hs. reflexivity.
  - cbn [App.all_chars]. rewrite Ha, (IH Hs). reflexivity.
Qed.

Lemma replace_comma_commas (s : string) :
  App.commas (App.replace_comma s) = Nat.pred (App.commas s).
Proof.
  induction s as [|a s IH]; [reflexivity|].
  cbn [App.replace_comma App.commas].
  destruct (Ascii.eqb a App.comma) eqn:Hc.
  - reflexivity.
  - cbn [App.commas]. rewrite Hc. exact IH.
Qed.

Lemma strip_amount_clean (s : string) :
  App.all_chars App.amount_char s = true -> App.strip_amount s = s.
Proof.
  induction s as [|a s IH]; [reflexivity|].
  cbn [App.all_chars App.strip_amount]. intros [Ha Hs]%andb_prop.
  rewrite Ha, (IH Hs). reflexivity.
Qed.

Lemma strip_amount_drops (s1 s2 : string) (a : Ascii.ascii) :
  App.amount_char a = false ->
  App.strip_amount (s1 ++ String a s2) = App.strip_amount (s1 ++ s2).
Proof.
  intros Ha. induction s1 as [|b s1 IH]; simpl.
  - rewrite Ha. reflexivity.
  - rewrite IH. reflexivity.
Qed.

Lemma replace_comma_first (pre post : string) :
  App.commas pre = 0%nat ->
  App.replace_comma (pre ++ String App.comma post) = pre ++ String App.dot post.
Proof.
  induction pre as [|b pre IH]; simpl.
  - reflexivity.
  - destruct (Ascii.eqb b App.comma); [discriminate|].
    intros Hpre. rewrite (IH Hpre). reflexivity.
Qed.

Lemma replace_comma_none (s : string) :
  App.commas s = 0%nat -> App.replace_comma s = s.
Proof.
  induction s as [|b s IH]; simpl; [reflexivity|].
  destruct (Ascii.eqb b App.comma); [discriminate|].
  intros Hs. rewrite (IH Hs). reflexivity.
Qed.

(** X16: typing in the amount field never stores a [NaN] amount: the amount is
    what [parseFloat] reads from the stored text, or 0 when that is [NaN].
    The stored text is the typed text without the characters that are not
    digits, commas or dots, with its first comma turned into a dot: a typed
    text of such characters only is stored as it is when it has no comma,
    and as [pre.post] when it is [pre,post] with no comma in [pre]; any
    other character is dropped wherever it stands.  The currencies and the
    result are not touched. *)
Theorem onAmountChange_sanitizes (h : App.JsHost) (typed : string) (ui : App.Ui) :
  let cd := App.conversorData ui in
  let cd' := App.conversorData (App.onAmountChange h typed ui) in
  PrimFloat.is_nan (App.amount cd') = false
  /\ App.amount cd'
     = (if PrimFloat.is_nan (App.parseFloat h (App.rawAmount cd')) then 0%float
        else App.parseFloat h (App.rawAmount cd'))
  /\ App.all_chars App.amount_char (App.rawAmount cd') = true
  /\ App.commas (App.rawAmount cd') = Nat.pred (App.commas typed)
  /\ App.from cd' = App.from cd /\ App.to cd' = App.to cd
  /\ App.result cd' = App.result cd
  /\ (App.all_chars App.amount_char typed = true ->
      (App.commas typed = 0%nat -> App.rawAmount cd' = typed)
      /\ forall pre post : string,
           typed = pre ++ String App.comma post ->
           App.commas pre = 0%nat ->
           App.rawAmount cd' = pre ++ String App.dot post)
  /\ (forall (s1 s2 : string) (a : Ascii.ascii),
        typed = s1 ++ String a s2 ->
        App.amount_char a = false ->
        App.rawAmount cd'
        = App.rawAmount (App.conversorData (App.onAmountChange h (s1 ++ s2) ui))).
Proof.
  cbv zeta. unfold App.onAmountChange, App.handleValueChange. cbn.
  split.
  { destruct (PrimFloat.is_nan (App.parseFloat h _)) eqn:Hnan; [reflexivity | exact Hnan]. }
  split; [reflexivity|].
  split; [apply replace_comma_chars, strip_amount_chars|].
  split; [rewrite replace_comma_commas, strip_amount_commas; reflexivity|].
  split; [reflexivity|]. split; [reflexivity|]. split; [reflexivity|].
  split.
  - intros Hclean. rewrite (strip_amount_clean typed Hclean).
    split; [apply replace_comma_none|].
    intros pre post -> Hpre. apply replace_comma_first. exact Hpre.
  - intros s1 s2 a -> Ha. rewrite (strip_amount_drops s1 s2 a Ha). reflexivity.
Qed.

(** ** Swapping the currencies *)

(** X17: Pressing "Inverter" twice restores the two currencies, the amount and
    the result; the text of the amount field is then the first amount
    formatted in the first currency.  The status and the pickers are not
    touched. *)
Theorem onInvert_twice_restores (intl : Intl.Host) (ui ui1 ui2 : App.Ui) :
  App.onInvert intl ui = Return ui1 ->
  App.onInvert intl ui1 = Return ui2 ->
  let cd := App.conversorData ui in
  let cd2 := App.conversorData ui2 in
  App.from cd2 = App.from cd /\ App.to cd2 = App.to cd
  /\ App.amount cd2 = App.amount cd /\ App.result cd2 = App.result cd
  /\ CurrencyFormat.format intl App.currencyFormat (App.amount cd) (App.from cd)
     = Return (App.rawAmount cd2)
  /\ App.appState ui2 = App.appState ui
  /\ App.currencies ui2 = App.currencies ui.
Proof.
  unfold App.onInvert, App.invertCurrencies. intros H1 H2. cbv zeta.
  destruct (CurrencyFormat.format intl _ (App.result _) (App.to (App.conversorData ui)))
    as [raw1|e1]; [|discriminate].
  injection H1 as <-. cbn in H2.
  destruct (CurrencyFormat.format intl _ (App.amount _) (App.from (App.conversorData ui)))
    as [raw2|e2]; [|discriminate].
  injection H2 as <-. cbn. auto 10.
Qed.

Lemma onInvert_twice_restores_witness :
  let ui := App.initial in
  let ui1 := App.mkUi (App.appState ui) (App.currencies ui)
               (App.mkConversorData "BRL" "USD" "" 0%float 0%float) in
  let cd := App.conversorData ui in
  let cd2 := App.conversorData ui in
  App.from cd2 = App.from cd /\ App.to cd2 = App.to cd
  /\ App.amount cd2 = App.amount cd /\ App.result cd2 = App.result cd
  /\ CurrencyFormat.format lenient_host App.currencyFormat (App.amount cd) (App.from cd)
     = Return (App.rawAmount cd2)
  /\ App.appState ui = App.appState ui
  /\ App.currencies ui = App.currencies ui.
Proof.
  apply (onInvert_twice_restores lenient_host App.initial
           (App.mkUi (App.appState App.initial) (App.currencies App.initial)
              (App.mkConversorData "BRL" "USD" "" 0%float 0%float))
           App.initial); reflexivity.
Defined.

(** ** The "Converter" button *)

Lemma shown_message_nonempty (e : JsError) :
  (if truthy_string (App.message e) then App.message e else "An error occurred") <> "".
Proof.
  unfold truthy_string.
  destruct (String.eqb_spec (App.message e) "") as [Heq | Hne]; cbn [negb];
    [discriminate | exact Hne].
Qed.

(** X18: The click handler never throws and always ends with [loading] off.  The
    result is shown, with no error, exactly when [convert] returned a number
    and the amount could be formatted: the result is then that number
    through [toFixed(2)] and [parseFloat].  In every other case (a thrown
    error, or [null] from [convert]) the converter data are left as they
    were and a non-empty error message is shown.  The pickers never change,
    and the service ends in the state [convert] left. *)
Theorem fetchRates_handler_outcome {realm : Realm} (h : App.JsHost) (intl : Intl.Host)
    (provider : Provider)
    (seen : App.ConversorData) (ui : App.Ui) (st : State) :
  let ui' := fst (App.fetchRates h intl provider seen ui st) in
  let cd := App.conversorData ui in
  App.loading (App.appState ui') = false
  /\ App.currencies ui' = App.currencies ui
  /\ snd (App.fetchRates h intl provider seen ui st)
     = exec (convert provider (App.from seen) (App.to seen) (App.amount seen)) st
  /\ match eval (convert provider (App.from seen) (App.to seen) (App.amount seen)) st,
           CurrencyFormat.format intl App.currencyFormat (App.amount seen) (App.from seen)
     with
     | Return (Some r), Return raw =>
         App.error (App.appState ui') = None
         /\ App.conversorData ui'
            = App.mkConversorData (App.from cd) (App.to cd) raw (App.amount cd)
                (App.parseFloat h (App.toFixed2 h r))
     | _, _ =>
         App.conversorData ui' = cd
         /\ exists msg : string, msg <> "" /\ App.error (App.appState ui') = Some msg
     end.
Proof.
  cbv zeta. unfold App.fetchRates, eval, exec.
  destruct (convert provider _ _ _ st) as [[[r|]|e] st']; cbn [fst snd].
  - unfold App.conversion_update.
    destruct (CurrencyFormat.format intl _ _ _) as [raw|e]; cbn.
    + auto.
    + split; [reflexivity|]. split; [reflexivity|]. split; [reflexivity|].
      split; [reflexivity|]. eexists. split; [apply (shown_message_nonempty e) | reflexivity].
  - split; [reflexivity|]. split; [reflexivity|]. split; [reflexivity|].
    assert (Hshown : App.conversorData ui = App.conversorData ui
              /\ exists msg : string, msg <> "" /\
                   Some (if truthy_string (App.null_member_message h)
                         then App.null_member_message h else "An error occurred") = Some msg).
    { split; [reflexivity|]. eexists. split; [|reflexivity].
      apply (shown_message_nonempty (TypeError (App.null_member_message h))). }
    first [ exact Hshown
          | destruct (CurrencyFormat.format intl App.currencyFormat (App.amount seen)
                       (App.from seen)); exact Hshown ].
  - split; [reflexivity|]. split; [reflexivity|]. split; [reflexivity|].
    assert (Hshown : App.conversorData ui = App.conversorData ui
              /\ exists msg : string, msg <> "" /\
                   Some (if truthy_string (App.message e)
                         then App.message e else "An error occurred") = Some msg).
    { split; [reflexivity|]. eexists. split; [|reflexivity].
      apply shown_message_nonempty. }
    first [ exact Hshown
          | destruct (CurrencyFormat.format intl App.currencyFormat (App.amount seen)
                       (App.from seen)); exact Hshown ].
Qed.

(** X19: Converting before the currency list is loaded (the mount effect has not
    run, or its fetch failed) is refused: the handler shows "Invalid
    currency: <from>", sends no request and changes nothing else. *)
Theorem fetchRates_handler_before_load {realm : Realm} (h : App.JsHost) (intl : Intl.Host)
    (provider : Provider) (seen : App.ConversorData) (ui : App.Ui) (st : State) :
  currencies (fst st) = [] ->
  App.fetchRates h intl provider seen ui st
  = (App.mkUi (App.mkAppState false (Some ("Invalid currency: " ++ App.from seen)))
       (App.currencies ui) (App.conversorData ui),
     st).
Proof.
  intros Hempty. unfold App.fetchRates.
  rewrite convert_run. unfold listed. rewrite Hempty. reflexivity.
Qed.

Lemma fetchRates_handler_before_load_witness :
  App.fetchRates App.nan_host lenient_host offline (App.conversorData App.initial)
    App.initial boot
  = (App.mkUi (App.mkAppState false (Some ("Invalid currency: " ++ "USD"))) [] 
       (App.conversorData App.initial),
     boot).
Proof.
  apply (fetchRates_handler_before_load App.nan_host lenient_host offline
           (App.conversorData App.initial) App.initial boot).
  reflexivity.
Defined.

(** X20: when the rates cannot be fetched and the cache reads nothing under
    the source currency, [convert] resolves to [null], which the handler
    passes to [toFixed]: the user sees the host's [TypeError] message (or "An
    error occurred" if that message is empty), not a conversion-unavailable
    notice, and the converter data are left as they were. *)
Theorem fetchRates_handler_on_failed_fetch {realm : Realm} (h : App.JsHost)
    (intl : Intl.Host) (provider : Provider) (seen : App.ConversorData) (ui : App.Ui)
    (st : State) :
  listed (fst st) (App.from seen) = true ->
  listed (fst st) (App.to seen) = true ->
  rates_get (fst st) (App.from seen) = None ->
  unsuccessful (next_latest provider st (App.from seen)) = true ->
  fst (App.fetchRates h intl provider seen ui st)
  = App.mkUi
      (App.mkAppState false
         (Some (if truthy_string (App.null_member_message h)
                then App.null_member_message h else "An error occurred")))
      (App.currencies ui) (App.conversorData ui).
Proof.
  intros Hfrom Hto Hnone Hfail. unfold App.fetchRates.
  rewrite convert_run, Hfrom, Hto. cbn [negb].
  rewrite (fetchRates_unsuccessful_run provider _ st Hfail), Hnone.
  reflexivity.
Qed.

Lemma fetchRates_handler_on_failed_fetch_witness :
  let provider := failing_from 1 ∅ in
  fst (App.fetchRates App.nan_host lenient_host provider (App.conversorData App.initial)
         App.initial (perform provider CallGetCurrencies boot))
  = App.mkUi
      (App.mkAppState false (Some "Cannot read properties of null (reading 'toFixed')"))
      [] (App.conversorData App.initial).
Proof.
  apply (fetchRates_handler_on_failed_fetch App.nan_host lenient_host (failing_from 1 ∅)
           (App.conversorData App.initial) App.initial
           (perform (failing_from 1 ∅) CallGetCurrencies boot)).
  - vm_compute; reflexivity.
  - vm_compute; reflexivity.
  - vm_compute; reflexivity.
  - vm_compute; reflexivity.
Defined.

(** ** Loading the pickers *)

(** X21: The mount effect, run while the service has no currency list: a success
    answer fills the pickers with the provider's pairs; a failed fetch is
    silent (the pickers stay empty and no error is shown); only a body that
    fails to parse shows "Failed to fetch currencies".  The converter data
    are never touched. *)
Theorem mount_outcomes (provider : Provider) (ui : App.Ui) (st : State) :
  currencies (fst st) = [] ->
  let ui' := fst (App.mount provider ui st) in
  App.conversorData ui' = App.conversorData ui
  /\ (codes_unsuccessful (next_codes provider st) = true ->
      App.currencies ui' = [] /\ App.appState ui' = App.appState ui)
  /\ (forall r e, next_codes provider st = Responds r -> ok r = true ->
        json r = Throw e ->
        App.currencies ui' = App.currencies ui
        /\ App.appState ui' = App.mkAppState false (Some "Failed to fetch currencies"))
  /\ (forall r d, next_codes provider st = Responds r -> ok r = true ->
        json r = Return (Some d) -> CodesData.result d = "success" ->
        map (fun c => (code c, name c)) (App.currencies ui') = CodesData.supported_codes d
        /\ App.appState ui' = App.appState ui).
Proof.
  intros Hempty. cbv zeta. unfold App.mount.
  rewrite getCurrenciesWithNames_run, Hempty. cbn [length Nat.eqb].
  destruct st as [this w]. cbn [fst snd] in *.
  rewrite fetchCurrencies_run. cbv zeta. unfold next_codes, codes_unsuccessful.
  cbn [fst snd]. unfold settled.
  destruct (codes_resource provider _ _) as [|r].
  - cbn. rewrite Hempty. split; [reflexivity|]. split; [auto|].
    split; intros; discriminate.
  - destruct (ok r) eqn:Hok.
    + destruct (json r) as [[d|]|e] eqn:Hjson.
      * destruct (String.eqb_spec (CodesData.result d) "success") as [Hres | Hres]; cbn.
        -- split; [reflexivity|]. split; [discriminate|].
           split; [intros r' e' Hr' _ Hj'; injection Hr' as <-; congruence|].
           intros r' d' Hr' _ Hj' _. injection Hr' as <-.
           rewrite Hjson in Hj'. injection Hj' as <-.
           split; [apply currencies_of_codes_round_trip | reflexivity].
        -- rewrite Hempty. split; [reflexivity|]. split; [auto|].
           split; [intros r' e' Hr' _ Hj'; injection Hr' as <-; congruence|].
           intros r' d' Hr' _ Hj' Hres'. injection Hr' as <-.
           rewrite Hjson in Hj'. injection Hj' as <-. contradiction.
      * cbn. rewrite Hempty. split; [reflexivity|]. split; [auto|].
        split; intros r' x Hr' _ Hj'; injection Hr' as <-; congruence.
      * cbn. split; [reflexivity|]. split; [discriminate|].
        split; [auto|].
        intros r' d' Hr' _ Hj'. injection Hr' as <-. congruence.
    + cbn. rewrite Hempty. split; [reflexivity|]. split; [auto|].
      split; intros r' x Hr' Hok'; injection Hr' as <-; congruence.
Qed.

Lemma mount_outcomes_witness :
  let ui' := fst (App.mount offline App.initial boot) in
  App.conversorData ui' = App.conversorData App.initial
  /\ (codes_unsuccessful (next_codes offline boot) = true ->
      App.currencies ui' = [] /\ App.appState ui' = App.appState App.initial)
  /\ (forall r e, next_codes offline boot = Responds r -> ok r = true ->
        json r = Throw e ->
        App.currencies ui' = App.currencies App.initial
        /\ App.appState ui' = App.mkAppState false (Some "Failed to fetch currencies"))
  /\ (forall r d, next_codes offline boot = Responds r -> ok r = true ->
        json r = Return (Some d) -> CodesData.result d = "success" ->
        map (fun c => (code c, name c)) (App.currencies ui') = CodesData.supported_codes d
        /\ App.appState ui' = App.appState App.initial).
Proof.
  apply (mount_outcomes offline App.initial boot). reflexivity.
Defined.

(** X22: The success path, end to end: on a service instance with both currencies
    listed and a source other than ["__proto__"], when the provider answers
    the rates request with a success
    result whose rate for the target is truthy and the amount can be
    formatted, the handler shows no error, writes the formatted amount in the
    amount field and shows [amount * rate] rounded through [toFixed(2)]. *)
Theorem fetchRates_handler_shows_conversion {realm : Realm} (h : App.JsHost) (intl : Intl.Host)
    (provider : Provider) (seen : App.ConversorData) (ui : App.Ui) (st : State)
    (r : Response CurrencyData.t) (d : CurrencyData.t) (rate : number) (raw : string) :
  reachable provider st ->
  App.from seen <> "__proto__" ->
  listed (fst st) (App.from seen) = true ->
  listed (fst st) (App.to seen) = true ->
  next_latest provider st (App.from seen) = Responds r ->
  ok r = true ->
  json r = Return (Some d) ->
  CurrencyData.result d = "success" ->
  CurrencyData.conversion_rates d !! App.to seen = Some rate ->
  truthy_number rate = true ->
  CurrencyFormat.format intl App.currencyFormat (App.amount seen) (App.from seen)
  = Return raw ->
  fst (App.fetchRates h intl provider seen ui st)
  = App.mkUi (App.mkAppState false None) (App.currencies ui)
      (App.mkConversorData (App.from (App.conversorData ui)) (App.to (App.conversorData ui))
         raw (App.amount (App.conversorData ui))
         (App.parseFloat h (App.toFixed2 h (App.amount seen * rate)%float))).
Proof.
  intros Hst Hne Hfrom Hto Hnext Hok Hjson Hres Hrate Htruthy Hraw.
  unfold App.fetchRates.
  rewrite convert_run, Hfrom, Hto. cbn [negb].
  rewrite (fetchRates_reachable_run provider _ st Hst). cbv zeta.
  unfold stored. rewrite Hnext. unfold settled. rewrite Hok, Hjson, Hres.
  rewrite String.eqb_refl. cbn beta iota.
  rewrite (rates_get_set_own _ _ _ Hne), (data_get_own _ _ _ Hrate).
  cbn [truthy to_number]. rewrite Htruthy. unfold App.conversion_update. rewrite Hraw.
  reflexivity.
Qed.

Lemma fetchRates_handler_shows_conversion_witness :
  let provider := steady {[ "BRL" := 5%float ]} in
  fst (App.fetchRates App.nan_host lenient_host provider
         (App.mkConversorData "USD" "BRL" "10" 10%float 0%float) App.initial
         (perform provider CallGetCurrencies boot))
  = App.mkUi (App.mkAppState false None) []
      (App.mkConversorData "USD" "BRL" "" 0%float
         (App.parseFloat App.nan_host (App.toFixed2 App.nan_host (10 * 5)%float))).
Proof.
  assert (Hnext : next_latest (steady {[ "BRL" := 5%float ]})
                    (perform (steady {[ "BRL" := 5%float ]}) CallGetCurrencies boot) "USD"
                  = Responds (mkResponse 200 (Return (Some (latest_of {[ "BRL" := 5%float ]})))))
    by (vm_compute; reflexivity).
  assert (Hne : "USD" <> "__proto__") by discriminate.
  assert (Hlisted : forall c, c = "USD" \/ c = "BRL" ->
            listed (fst (perform (steady {[ "BRL" := 5%float ]}) CallGetCurrencies boot)) c
            = true)
    by (intros c [-> | ->]; vm_compute; reflexivity).
  exact (fetchRates_handler_shows_conversion App.nan_host lenient_host
           (steady {[ "BRL" := 5%float ]})
           (App.mkConversorData "USD" "BRL" "10" 10%float 0%float) App.initial
           (perform (steady {[ "BRL" := 5%float ]}) CallGetCurrencies boot)
           (mkResponse 200 (Return (Some (latest_of {[ "BRL" := 5%float ]}))))
           (latest_of {[ "BRL" := 5%float ]}) 5%float ""
           (reachable_boot_listed _) Hne (Hlisted "USD" (or_introl eq_refl))
           (Hlisted "BRL" (or_intror eq_refl)) Hnext eq_refl eq_refl eq_refl eq_refl
           eq_refl eq_refl).
Defined.

(** Why the source must not be ["__proto__"]: the table then becomes the
    prototype of the cache, and when it carries a key "__proto__" of its own
    the cache reads that number back instead of the table, so the rate is
    not found. *)
Example fetchRates_handler_proto_source :
  let provider := listing [("__proto__", "Prototype"); ("BRL", "Brazilian Real")]
                    (<["__proto__" := 7%float]> {[ "BRL" := 5%float ]}) in
  let st := perform provider CallGetCurrencies boot in
  eval (fetchRates provider "__proto__") st = Return (Some (NotATable (InheritedNumber 7%float)))
  /\ App.error (App.appState
        (fst (App.fetchRates App.nan_host lenient_host provider
                (App.mkConversorData "__proto__" "BRL" "10" 10%float 0%float)
                App.initial st)))
     = Some "Exchange rate not found for __proto__ to BRL".
Proof. vm_compute. split; reflexivity. Qed.

(** * Construction *)

(** X23: A service is constructed exactly from a non-empty key: the empty key is
    refused with "API key is required."; otherwise the instance starts with
    no currencies, no rates and no timestamp, and its first listing call asks
    for the URL made of the base URL, that key and "/codes" (with the doubled
    slashes of the template). *)
Theorem new_service {realm : Realm} (provider : Provider) (apiKey : string) (now : Z) :
  match new apiKey with
  | Throw e => apiKey = "" /\ e = Error "API key is required."
  | Return this =>
      apiKey <> ""
      /\ currencies this = [] /\ rates this = ∅ /\ updatedAt this = None
      /\ requests (snd (perform provider CallGetCurrencies (this, mkWorld now [])))
         = ["https://v6.exchangerate-api.com/v6//" ++ apiKey ++ "//codes"]
  end.
Proof.
  unfold new, truthy_string.
  destruct (String.eqb_spec apiKey "") as [-> | Hne]; cbn [negb]; [auto|].
  split; [exact Hne|]. split; [reflexivity|]. split; [reflexivity|].
  split; [reflexivity|].
  rewrite listing_requests by reflexivity. reflexivity.
Qed.
